(** * Whiteboard-bridge: the room bridge, slide-source classification and
      app-creation dispatch

    A shallow embedding of the two TypeScript room bridges of the
    repository:

    - [RoomBridge]: src/unnamed/part_000, the class-based bridge
      (RoomBridge, RoomPPTBridge, RoomSyncBridge, RoomAsyncBridge,
      RoomStateBridge);
    - [Room]: src/src/bridge/Room.ts, the function-based bridge
      (registerRoom).

    JavaScript strings are sequences of UTF-16 code units; the regular
    expression of makeSlideParams is run by a small backtracking matcher
    that follows the ECMAScript evaluation order (greedy and lazy
    quantifiers, named groups, the start-of-input assertion). The SDK room,
    the window manager and the response callback are external
    collaborators: the bridge methods are written in a monad that records
    every call made on them and threads the collaborators' state. *)

From Stdlib Require Import List NArith ZArith Bool String Ascii Lia.
Import ListNotations.

Set Implicit Arguments.
Set Warnings "-register-all".

(** A JavaScript string value: its UTF-16 code units. *)
Definition JsString := list N.

(* ================================================================== *)
(** ** JavaScript strings *)

Module Js.

(** The code units of an ASCII literal of the source text. *)
Definition lit (s : string) : JsString :=
  map N_of_ascii (list_ascii_of_string s).

Fixpoint eqb (a b : JsString) : bool :=
  match a, b with
  | [], [] => true
  | x :: a', y :: b' => N.eqb x y && eqb a' b'
  | _, _ => false
  end.

(** [strip p s] is the rest of [s] after its prefix [p], if [p] is one. *)
Fixpoint strip (p s : JsString) : option JsString :=
  match p with
  | [] => Some s
  | x :: p' =>
      match s with
      | y :: s' => if N.eqb x y then strip p' s' else None
      | [] => None
      end
  end.

(** String.prototype.startsWith at position 0. *)
Definition startsWith (s p : JsString) : bool :=
  match strip p s with Some _ => true | None => false end.

(** ToBoolean on a string: the empty string is the only falsy one. *)
Definition truthy (s : JsString) : bool :=
  match s with [] => false | _ :: _ => true end.

End Js.

(* ================================================================== *)
(** ** Regular expressions, as far as makeSlideParams uses them *)

Module RegExp.

(** Character class escapes. *)
Inductive CharClass :=
| WordChar      (* \w *)
| NonSpace.     (* \S *)

(** \w without the unicode and ignoreCase flags: [A-Za-z0-9_]. *)
Definition is_word (c : N) : bool :=
  ((48 <=? c) && (c <=? 57)        (* 0-9 *)
   || (65 <=? c) && (c <=? 90)     (* A-Z *)
   || (97 <=? c) && (c <=? 122)    (* a-z *)
   || (c =? 95))%N.                (* _ *)

(** \s: the WhiteSpace and LineTerminator code points. *)
Definition is_space (c : N) : bool :=
  ((9 <=? c) && (c <=? 13)               (* TAB LF VT FF CR *)
   || (c =? 32)                          (* SP *)
   || (c =? 160)                         (* U+00A0 NBSP *)
   || (c =? 5760)                        (* U+1680 *)
   || (8192 <=? c) && (c <=? 8202)       (* U+2000 - U+200A *)
   || (c =? 8232) || (c =? 8233)         (* U+2028 LS, U+2029 PS *)
   || (c =? 8239)                        (* U+202F *)
   || (c =? 8287)                        (* U+205F *)
   || (c =? 12288)                       (* U+3000 *)
   || (c =? 65279))%N.                   (* U+FEFF ZWNBSP *)

Definition in_class (k : CharClass) (c : N) : bool :=
  match k with
  | WordChar => is_word c
  | NonSpace => negb (is_space c)
  end.

(** The pattern nodes that occur in the source; a pattern is a sequence. *)
Inductive Node :=
| Bol                                         (* ^ *)
| Chars (s : JsString)                        (* literal characters *)
| Opt (s : JsString)                          (* c?  (greedy) *)
| PlusGreedy (k : CharClass)                  (* \w+ *)
| PlusLazy (k : CharClass)                    (* \S+? *)
| Named (name : string) (body : list Node).   (* (?<name>...) *)

(** Captured named groups. *)
Definition Groups := list (string * JsString).

Fixpoint group (name : string) (g : Groups) : option JsString :=
  match g with
  | [] => None
  | (n, v) :: g' => if String.eqb n name then Some v else group name g'
  end.

(** The matcher is written with continuations, as in the ECMAScript
    specification: a node is given the rest of the input and what to do
    once it has matched; a failing continuation makes the node try its
    next alternative. [pos] is the index of the rest in the whole input. *)
Definition Cont := nat -> JsString -> Groups -> option Groups.

(** One or more characters of a class, longest first. *)
Fixpoint plus_greedy (k : CharClass) (pos : nat) (inp : JsString)
         (c : nat -> JsString -> option Groups) : option Groups :=
  match inp with
  | ch :: rest =>
      if in_class k ch then
        match plus_greedy k (S pos) rest c with
        | Some r => Some r
        | None => c (S pos) rest
        end
      else None
  | [] => None
  end.

(** One or more characters of a class, shortest first. *)
Fixpoint plus_lazy (k : CharClass) (pos : nat) (inp : JsString)
         (c : nat -> JsString -> option Groups) : option Groups :=
  match inp with
  | ch :: rest =>
      if in_class k ch then
        match c (S pos) rest with
        | Some r => Some r
        | None => plus_lazy k (S pos) rest c
        end
      else None
  | [] => None
  end.

Fixpoint match_node (n : Node) (pos : nat) (inp : JsString) (g : Groups)
         (c : Cont) {struct n} : option Groups :=
  match n with
  | Bol => if Nat.eqb pos 0 then c pos inp g else None
  | Chars s =>
      match Js.strip s inp with
      | Some rest => c (pos + List.length s) rest g
      | None => None
      end
  | Opt s =>
      match Js.strip s inp with
      | Some rest =>
          match c (pos + List.length s) rest g with
          | Some r => Some r
          | None => c pos inp g
          end
      | None => c pos inp g
      end
  | PlusGreedy k => plus_greedy k pos inp (fun p r => c p r g)
  | PlusLazy k => plus_lazy k pos inp (fun p r => c p r g)
  | Named name body =>
      (fix seq (ns : list Node) (pos' : nat) (inp' : JsString) (g' : Groups)
           (c' : Cont) {struct ns} : option Groups :=
         match ns with
         | [] => c' pos' inp' g'
         | n' :: ns' =>
             match_node n' pos' inp' g'
                        (fun p r g'' => seq ns' p r g'' c')
         end)
        body pos inp g
        (fun p r g' => c p r ((name, firstn (p - pos) inp) :: g'))
  end.

Fixpoint match_seq (ns : list Node) (pos : nat) (inp : JsString)
         (g : Groups) (c : Cont) : option Groups :=
  match ns with
  | [] => c pos inp g
  | n :: ns' => match_node n pos inp g (fun p r g' => match_seq ns' p r g' c)
  end.

(** What RegExp.prototype.exec returns on success, as far as the source
    reads it: the [groups] object, present exactly when the pattern has
    named groups. *)
Record MatchResult := { groups : option Groups }.

Definition has_named (ns : list Node) : bool :=
  existsb (fun n => match n with Named _ _ => true | _ => false end) ns.

(** exec of a pattern without the global and sticky flags: the match is
    attempted at every start index from 0 on, the first success wins. *)
Fixpoint exec_from (re : list Node) (pos : nat) (inp : JsString)
  : option MatchResult :=
  match match_seq re pos inp [] (fun _ _ g => Some g) with
  | Some g => Some {| groups := if has_named re then Some g else None |}
  | None =>
      match inp with
      | [] => None
      | _ :: rest => exec_from re (S pos) rest
      end
  end.

Definition exec (re : list Node) (s : JsString) : option MatchResult :=
  exec_from re 0 s.

End RegExp.

(* ================================================================== *)
(** ** Scenes (white-web-sdk's SceneDefinition) *)

Record PptDescription := {
  src : JsString;
  width : Z;
  height : Z;
  previewURL : option JsString
}.

Record SceneDefinition := {
  name : option JsString;
  ppt : option PptDescription
}.

(** The object literal [{name: v.name}] / [{ name }]. *)
Definition name_only (nm : option JsString) : SceneDefinition :=
  {| name := nm; ppt := None |}.

Record SlideParams := {
  scenesWithoutPPT : list SceneDefinition;
  taskId : JsString;
  url : JsString
}.

(** /^pptx?(?<prefix>:\/\/\S+?dynamicConvert)\/(?<taskId>\w+)\// *)
Definition pptSrcRE : list RegExp.Node :=
  [ RegExp.Bol;
    RegExp.Chars (Js.lit "ppt");
    RegExp.Opt (Js.lit "x");
    RegExp.Named "prefix"
      [ RegExp.Chars (Js.lit "://");
        RegExp.PlusLazy RegExp.NonSpace;
        RegExp.Chars (Js.lit "dynamicConvert") ];
    RegExp.Chars (Js.lit "/");
    RegExp.Named "taskId" [ RegExp.PlusGreedy RegExp.WordChar ];
    RegExp.Chars (Js.lit "/") ].

(** One iteration of the loop body of makeSlideParams, after the
    destructuring of the scene: [None] is [continue], [Some (taskId, url)]
    is the two assignments followed by [break]. The body is the same text
    in both bridges. *)
Definition slide_source (p : option PptDescription)
  : option (JsString * JsString) :=
  match p with
  | None => None                                  (* !ppt *)
  | Some d =>
      if negb (Js.startsWith (src d) (Js.lit "ppt")) then None
      else
        match RegExp.exec pptSrcRE (src d) with
        | None => None                            (* !match *)
        | Some m =>
            match RegExp.groups m with
            | None => None                        (* !match.groups *)
            | Some g =>
                (* match.groups.taskId, "https" + match.groups.prefix;
                   both groups take part in every match *)
                match RegExp.group "taskId" g, RegExp.group "prefix" g with
                | Some t, Some pre => Some (t, Js.lit "https" ++ pre)
                | _, _ => None
                end
            end
        end
  end.

(* ================================================================== *)
(** ** Collaborators and effects *)

(** A thrown Error object, as far as the bridge reads it. *)
Record JsError := { message : JsString; stack : JsString }.

(** How a call ends: it returns or it throws. *)
Inductive Completion (A : Type) :=
| Normal (a : A)
| Throw (e : JsError).
Arguments Throw {A} e.

(** The eventual state of a promise handed out by a collaborator. A
    rejection reason may be [undefined] (Promise.reject()). *)
Inductive Promise (A : Type) :=
| Fulfilled (a : A)
| Rejected (reason : option JsError)
| Pending.
Arguments Rejected {A} reason.
Arguments Pending {A}.

(** Values passed to JSON.stringify by the bridge. *)
Inductive Json :=
| JObject (fields : list (string * Json))
| JString (s : JsString)
| JBoolean (b : bool)
| JNumber (n : Z).

(** The argument of one responseCallback invocation. JSON.stringify is
    kept symbolic: the callback receives the serialization of the value
    under [Stringified]. *)
Inductive Arg :=
| Stringified (v : Json)            (* JSON.stringify(v) *)
| Number (n : Z)
| Boolean (b : bool)
| AppId (id : option JsString)      (* string | undefined *)
| NoArg.                            (* responseCallback() *)

(** The object literal of the catch handlers:
    {{ __error: { message: e.message, jsStack: e.stack } }} *)
Definition error_payload (e : JsError) : Json :=
  JObject [("__error"%string,
            JObject [("message"%string, JString (message e));
                     ("jsStack"%string, JString (stack e))])].

(** AddAppOptions of the window manager, as read through the cast
    [options as AddAppOptions] and the non-null assertions on its three
    properties: a request without a scene list is outside the model. *)
Record AddAppOptions := {
  scenePath : option JsString;
  title : option JsString;
  scenes : list SceneDefinition
}.

Section Effects.

(** Values the host passes as [any]. *)
Variable Any : Type.

(** The state of the collaborators (room, window manager). *)
Variable W : Type.

Inductive AppOptions :=
| HostOptions (o : Any)                                 (* options, as received *)
| SceneOptions (o : AddAppOptions).                     (* { scenePath, title, scenes } *)

Inductive AppAttributes :=
| NoAttributes                                          (* no such property *)
| HostAttributes (a : Any)                              (* attributes, as received *)
| SlideAttributes (task : JsString) (base : JsString).  (* { taskId, url } *)

(** The parameter object of window.manager.addApp. *)
Record AddAppParams := {
  kind : JsString;
  options : AppOptions;
  attributes : AppAttributes
}.

(** Method calls on the collaborators. *)
Inductive Call :=
| room_redo
| room_undo
| room_setScenePath (path : JsString)
| manager_setMainViewScenePath (path : JsString)
| room_setSceneIndex (index : Z)
| manager_setMainViewSceneIndex (index : Z)
| room_setWritable (writable : bool)
| manager_nextPage
| manager_prevPage
| room_cleanCurrentScene (retainPpt : option bool)
| manager_addApp (params : AddAppParams).

Inductive Event :=
| Called (c : Call)
| Responded (a : Arg)          (* responseCallback(a) *)
| Logged (funName : string)    (* logger(funName, ...) *)
| ConsoleLog (e : JsError).    (* console.log(err) *)

(** What the collaborators do: the properties the bridge reads and, for
    every method it calls, the completion and the state afterwards. *)
Class Sdk := {
  window_manager : W -> bool;              (* is window.manager set *)
  sceneState_index : W -> Z;               (* room.state.sceneState.index *)
  sceneState_scenes : W -> list SceneDefinition;
  isWritable : W -> bool;                  (* room.isWritable *)
  observerId : W -> Z;                     (* room.observerId *)
  undefined_access : JsError;              (* TypeError: property of undefined *)
  do_room_redo : W -> Completion Z * W;
  do_room_undo : W -> Completion Z * W;
  do_room_setScenePath : JsString -> W -> Completion unit * W;
  do_manager_setMainViewScenePath : JsString -> W -> Completion unit * W;
  do_room_setSceneIndex : Z -> W -> Completion unit * W;
  do_manager_setMainViewSceneIndex : Z -> W -> Completion unit * W;
  do_room_setWritable : bool -> W -> Completion (Promise unit) * W;
  do_manager_nextPage : W -> Completion (Promise bool) * W;
  do_manager_prevPage : W -> Completion (Promise bool) * W;
  do_room_cleanCurrentScene : option bool -> W -> Completion unit * W;
  do_manager_addApp :
    AddAppParams -> W -> Completion (Promise (option JsString)) * W
}.

Context {sdk : Sdk}.

(** A bridge computation: the events it produces in order, the
    collaborators' state afterwards and how it completes. *)
Record Outcome (A : Type) := {
  trace : list Event;
  world : W;
  result : Completion A
}.

Definition M (A : Type) := W -> Outcome A.

Definition ret {A} (a : A) : M A :=
  fun w => {| trace := []; world := w; result := Normal a |}.

Definition throw {A} (e : JsError) : M A :=
  fun w => {| trace := []; world := w; result := Throw e |}.

Definition bind {A B} (m : M A) (f : A -> M B) : M B :=
  fun w =>
    let o := m w in
    match result o with
    | Normal a =>
        let o' := f a (world o) in
        {| trace := trace o ++ trace o';
           world := world o';
           result := result o' |}
    | Throw e => {| trace := trace o; world := world o; result := Throw e |}
    end.

(** try { body } catch (e) { handler e } *)
Definition try_catch {A} (body : M A) (handler : JsError -> M A) : M A :=
  fun w =>
    let o := body w in
    match result o with
    | Normal _ => o
    | Throw e =>
        let o' := handler e (world o) in
        {| trace := trace o ++ trace o';
           world := world o';
           result := result o' |}
    end.

Definition read {A} (f : W -> A) : M A :=
  fun w => {| trace := []; world := w; result := Normal (f w) |}.

Definition emit (e : Event) : M unit :=
  fun w => {| trace := [e]; world := w; result := Normal tt |}.

(** A method call on a collaborator. *)
Definition call {A} (c : Call) (f : W -> Completion A * W) : M A :=
  fun w =>
    let '(r, w') := f w in
    {| trace := [Called c]; world := w'; result := r |}.

(** The host's callback, the logger of registerRoom and console.log only
    record that they were invoked. *)
Definition responseCallback (a : Arg) : M unit := emit (Responded a).
Definition logger (funName : string) : M unit := emit (Logged funName).
Definition console_log (e : JsError) : M unit := emit (ConsoleLog e).

End Effects.

Arguments window_manager {Any W Sdk}.
Arguments sceneState_index {Any W Sdk}.
Arguments sceneState_scenes {Any W Sdk}.
Arguments isWritable {Any W Sdk}.
Arguments observerId {Any W Sdk}.
Arguments undefined_access {Any W Sdk}.
Arguments do_room_redo {Any W Sdk}.
Arguments do_room_undo {Any W Sdk}.
Arguments do_room_setScenePath {Any W Sdk}.
Arguments do_manager_setMainViewScenePath {Any W Sdk}.
Arguments do_room_setSceneIndex {Any W Sdk}.
Arguments do_manager_setMainViewSceneIndex {Any W Sdk}.
Arguments do_room_setWritable {Any W Sdk}.
Arguments do_manager_nextPage {Any W Sdk}.
Arguments do_manager_prevPage {Any W Sdk}.
Arguments do_room_cleanCurrentScene {Any W Sdk}.
Arguments do_manager_addApp {Any W Sdk}.
Arguments NoAttributes {Any}.
Arguments SlideAttributes {Any} task base.
Arguments SceneOptions {Any} o.
Arguments room_redo {Any}.
Arguments room_undo {Any}.
Arguments room_setScenePath {Any} path.
Arguments manager_setMainViewScenePath {Any} path.
Arguments room_setSceneIndex {Any} index.
Arguments manager_setMainViewSceneIndex {Any} index.
Arguments room_setWritable {Any} writable.
Arguments manager_nextPage {Any}.
Arguments manager_prevPage {Any}.
Arguments room_cleanCurrentScene {Any} retainPpt.
Arguments Responded {Any} a.
Arguments Logged {Any} funName.
Arguments ConsoleLog {Any} e.
Arguments ret {Any W A} a.
Arguments throw {Any W A} e.
Arguments read {Any W A} f.
Arguments responseCallback {Any W} a.
Arguments logger {Any W} funName.
Arguments console_log {Any W} e.

Notation "x <- m ;; k" := (bind m (fun x => k))
  (at level 61, m at next level, right associativity).
Notation "m ;; k" := (bind m (fun _ => k))
  (at level 61, right associativity).

Section Promises.

Context {Any W : Type}.

(** p.then(f): the handler runs once [p] is fulfilled; what it throws
    rejects the promise that [then] returns. The bridge attaches its
    handlers last in a method, so they are run here in the state that the
    method leaves; a promise that stays pending runs none. *)
Definition then_ {A B} (p : Promise A) (f : A -> M Any W B)
  : M Any W (Promise B) :=
  match p with
  | Fulfilled a =>
      try_catch (b <- f a ;; ret (Fulfilled b))
                (fun e => ret (Rejected (Some e)))
  | Rejected r => ret (Rejected r)
  | Pending => ret Pending
  end.

(** p.catch(f): the handler runs once [p] is rejected. *)
Definition catch_ {A} (p : Promise A) (f : option JsError -> M Any W A)
  : M Any W (Promise A) :=
  match p with
  | Fulfilled a => ret (Fulfilled a)
  | Rejected r =>
      try_catch (a <- f r ;; ret (Fulfilled a))
                (fun e => ret (Rejected (Some e)))
  | Pending => ret Pending
  end.

(** The collaborator calls and the callback invocations of a trace. *)
Definition calls (t : list (Event Any)) : list (Call Any) :=
  flat_map (fun e => match e with Called c => [c] | _ => [] end) t.

Definition responses (t : list (Event Any)) : list Arg :=
  flat_map (fun e => match e with Responded a => [a] | _ => [] end) t.

End Promises.

(** Modelled from the spec: the enum member BuiltinApps.DocsViewer belongs
    to the window-manager library, which is not under src/; the spec calls
    it the kind of the generic document-viewer app. No theorem depends on
    its spelling. *)
Definition BuiltinApps_DocsViewer : JsString := Js.lit "DocsViewer".

(* ------------------------------------------------------------------ *)
(** *** src/unnamed/part_000 *)

Module RoomBridge.

(** The [for (const { ppt } of scenes)] loop, with [taskId] and [url] as
    they stand when the iteration starts. *)
Fixpoint scan (scenes : list SceneDefinition) (tid u : JsString)
  : JsString * JsString :=
  match scenes with
  | [] => (tid, u)
  | s :: rest =>
      match slide_source (ppt s) with
      | None => scan rest tid u
      | Some r => r
      end
  end.

Definition makeSlideParams (scenes : list SceneDefinition) : SlideParams :=
  let stripped := map (fun v => name_only (name v)) scenes in
  let '(tid, u) := scan scenes [] [] in
  {| scenesWithoutPPT := stripped; taskId := tid; url := u |}.

Section Methods.

Context {Any W : Type} {sdk : Sdk Any W}.

(** The cast [options as AddAppOptions]. *)
Variable as_AddAppOptions : Any -> AddAppOptions.

Local Abbreviation M := (M Any W).

(** window.manager!.addApp(params) *)
Definition manager_bang_addApp (params : AddAppParams Any)
  : M (Promise (option JsString)) :=
  m <- read window_manager ;;
  if m then call (manager_addApp params) (do_manager_addApp params)
  else throw undefined_access.

Definition addSlideApp (scenePath title : option JsString)
           (scenes : list SceneDefinition) : M (Promise (option JsString)) :=
  let r := makeSlideParams scenes in
  try_catch
    (if Js.truthy (taskId r) && Js.truthy (url r) then
       manager_bang_addApp
         {| kind := Js.lit "Slide";
            options := SceneOptions
                         {| scenePath := scenePath;
                            title := title;
                            scenes := scenesWithoutPPT r |};
            attributes := SlideAttributes (taskId r) (url r) |}
     else
       manager_bang_addApp
         {| kind := BuiltinApps_DocsViewer;
            options := SceneOptions
                         {| scenePath := scenePath;
                            title := title;
                            scenes := scenes |};
            attributes := NoAttributes |})
    (fun err => console_log err ;; ret (Rejected None)).

(** RoomAsyncBridge *)

Definition redo : M unit :=
  count <- call room_redo do_room_redo ;;
  responseCallback (Number count).

Definition undo : M unit :=
  count <- call room_undo do_room_undo ;;
  responseCallback (Number count).

Definition setScenePath (scenePath : JsString) : M unit :=
  try_catch
    (m <- read window_manager ;;
     (if m then
        call (manager_setMainViewScenePath scenePath)
             (do_manager_setMainViewScenePath scenePath)
      else
        call (room_setScenePath scenePath) (do_room_setScenePath scenePath)) ;;
     responseCallback (Stringified (JObject [])))
    (fun e => responseCallback (Stringified (error_payload e))).

Definition nextPage : M unit :=
  m <- read window_manager ;;
  if m then
    p <- call manager_nextPage do_manager_nextPage ;;
    then_ p (fun result => responseCallback (Boolean result)) ;;
    ret tt
  else
    index <- read sceneState_index ;;
    let nextIndex := (index + 1)%Z in
    scenes <- read sceneState_scenes ;;
    if (nextIndex <? Z.of_nat (List.length scenes))%Z then
      call (room_setSceneIndex nextIndex) (do_room_setSceneIndex nextIndex) ;;
      responseCallback (Boolean true)
    else
      responseCallback (Boolean false).

Definition prevPage : M unit :=
  m <- read window_manager ;;
  if m then
    p <- call manager_prevPage do_manager_prevPage ;;
    then_ p (fun result => responseCallback (Boolean result)) ;;
    ret tt
  else
    index <- read sceneState_index ;;
    let prevIndex := (index - 1)%Z in
    if (prevIndex >=? 0)%Z then
      call (room_setSceneIndex prevIndex) (do_room_setSceneIndex prevIndex) ;;
      responseCallback (Boolean true)
    else
      responseCallback (Boolean false).

Definition setWritable (writable : bool) : M unit :=
  p <- call (room_setWritable writable) (do_room_setWritable writable) ;;
  p' <- then_ p (fun _ =>
          w <- read isWritable ;;
          o <- read observerId ;;
          responseCallback
            (Stringified (JObject [("isWritable"%string, JBoolean w);
                                   ("observerId"%string, JNumber o)]))) ;;
  catch_ p' (fun error =>
    match error with
    | Some e => responseCallback (Stringified (error_payload e))
    | None => throw undefined_access       (* error.message of undefined *)
    end) ;;
  ret tt.

Definition setSceneIndex (index : Z) : M unit :=
  try_catch
    (m <- read window_manager ;;
     (if m then
        call (manager_setMainViewSceneIndex index)
             (do_manager_setMainViewSceneIndex index)
      else
        call (room_setSceneIndex index) (do_room_setSceneIndex index)) ;;
     responseCallback (Stringified (JObject [])))
    (fun error => responseCallback (Stringified (error_payload error))).

(** The local [retain] of cleanScene; [None] is an undefined argument. *)
Definition cleanScene_retain (retainPpt : option bool) : bool :=
  match retainPpt with
  | None => false
  | Some b => negb (negb b)
  end.

Definition cleanScene (retainPpt : option bool) : M unit :=
  let retain := cleanScene_retain retainPpt in
  call (room_cleanCurrentScene retainPpt)
       (do_room_cleanCurrentScene retainPpt).

Definition addApp (kind : JsString) (options attributes : Any) : M unit :=
  m <- read window_manager ;;
  if m then
    if Js.eqb kind (Js.lit "Slide") then
      let opts := as_AddAppOptions options in
      p <- addSlideApp (scenePath opts) (title opts) (scenes opts) ;;
      then_ p (fun appId => responseCallback (AppId appId)) ;;
      ret tt
    else
      p <- call (manager_addApp {| kind := kind;
                                   options := HostOptions options;
                                   attributes := HostAttributes attributes |})
                (do_manager_addApp {| kind := kind;
                                      options := HostOptions options;
                                      attributes := HostAttributes attributes |}) ;;
      then_ p (fun appId => responseCallback (AppId appId)) ;;
      ret tt
  else ret tt.

End Methods.

End RoomBridge.

(* ------------------------------------------------------------------ *)
(** *** src/src/bridge/Room.ts *)

Module Room.

(** The [for (const { name, ppt } of scenes)] loop: the push comes first in
    the body, so the scene that matches is pushed, and [break] leaves the
    scenes after it unvisited. *)
Fixpoint scan (scenes : list SceneDefinition)
         (acc : list SceneDefinition) (tid u : JsString)
  : list SceneDefinition * JsString * JsString :=
  match scenes with
  | [] => (acc, tid, u)
  | s :: rest =>
      let acc' := acc ++ [name_only (name s)] in
      match slide_source (ppt s) with
      | None => scan rest acc' tid u
      | Some (tid', u') => (acc', tid', u')
      end
  end.

Definition makeSlideParams (scenes : list SceneDefinition) : SlideParams :=
  let '(stripped, tid, u) := scan scenes [] [] [] in
  {| scenesWithoutPPT := stripped; taskId := tid; url := u |}.

Section Methods.

Context {Any W : Type} {sdk : Sdk Any W}.

(** The cast [options as AddAppOptions]. *)
Variable as_AddAppOptions : Any -> AddAppOptions.

Local Abbreviation M := (M Any W).

(** window.manager!.addApp(params) *)
Definition manager_bang_addApp (params : AddAppParams Any)
  : M (Promise (option JsString)) :=
  m <- read window_manager ;;
  if m then call (manager_addApp params) (do_manager_addApp params)
  else throw undefined_access.

Definition addSlideApp (scenePath title : option JsString)
           (scenes : list SceneDefinition) : M (Promise (option JsString)) :=
  let r := makeSlideParams scenes in
  try_catch
    (if Js.truthy (taskId r) && Js.truthy (url r) then
       manager_bang_addApp
         {| kind := Js.lit "Slide";
            options := SceneOptions
                         {| scenePath := scenePath;
                            title := title;
                            scenes := scenesWithoutPPT r |};
            attributes := SlideAttributes (taskId r) (url r) |}
     else
       manager_bang_addApp
         {| kind := BuiltinApps_DocsViewer;
            options := SceneOptions
                         {| scenePath := scenePath;
                            title := title;
                            scenes := scenes |};
            attributes := NoAttributes |})
    (fun err => console_log err ;; ret (Rejected None)).

(** The methods registered under "room" by registerRoom. *)

Definition cleanScene_retain (retainPpt : option bool) : bool :=
  match retainPpt with
  | None => false
  | Some b => negb (negb b)
  end.

Definition cleanScene (retainPpt : option bool) : M unit :=
  let retain := cleanScene_retain retainPpt in
  logger "cleanCurrentScene: " ;;
  call (room_cleanCurrentScene retainPpt)
       (do_room_cleanCurrentScene retainPpt).

Definition addApp (kind : JsString) (options attributes : Any) : M unit :=
  logger "addApp" ;;
  m <- read window_manager ;;
  if m then
    if Js.eqb kind (Js.lit "Slide") then
      let opts := as_AddAppOptions options in
      p <- addSlideApp (scenePath opts) (title opts) (scenes opts) ;;
      then_ p (fun appId => responseCallback (AppId appId)) ;;
      ret tt
    else
      p <- call (manager_addApp {| kind := kind;
                                   options := HostOptions options;
                                   attributes := HostAttributes attributes |})
                (do_manager_addApp {| kind := kind;
                                      options := HostOptions options;
                                      attributes := HostAttributes attributes |}) ;;
      then_ p (fun appId => responseCallback (AppId appId)) ;;
      ret tt
  else ret tt.

End Methods.

End Room.

(* ================================================================== *)
(** ** Scripted collaborators

    An instance of the collaborator interface whose methods answer from a
    fixed script, to run the bridge on concrete requests. The host values
    are AddAppOptions objects; room.setSceneIndex stores an index that is
    in range and throws otherwise. *)

Module Scripted.

Record World := {
  manager : bool;
  index : Z;
  scene_list : list SceneDefinition;
  on_redo : Completion Z;
  on_setScenePath : Completion unit;
  on_setWritable : Completion (Promise unit);
  on_page : Completion (Promise bool);
  on_addApp : Completion (Promise (option JsString))
}.

Definition error (msg : string) : JsError :=
  {| message := Js.lit msg; stack := Js.lit "Error at <anonymous>" |}.

Definition with_index (i : Z) (w : World) : World :=
  {| manager := manager w;
     index := i;
     scene_list := scene_list w;
     on_redo := on_redo w;
     on_setScenePath := on_setScenePath w;
     on_setWritable := on_setWritable w;
     on_page := on_page w;
     on_addApp := on_addApp w |}.

Definition setSceneIndex (i : Z) (w : World) : Completion unit * World :=
  if ((0 <=? i) && (i <? Z.of_nat (List.length (scene_list w))))%Z
  then (Normal tt, with_index i w)
  else (Throw (error "index out of range"), w).

#[global] Instance sdk : Sdk AddAppOptions World := {|
  window_manager := manager;
  sceneState_index := index;
  sceneState_scenes := scene_list;
  isWritable := fun _ => true;
  observerId := fun _ => 0%Z;
  undefined_access := error "Cannot read properties of undefined";
  do_room_redo := fun w => (on_redo w, w);
  do_room_undo := fun w => (on_redo w, w);
  do_room_setScenePath := fun _ w => (on_setScenePath w, w);
  do_manager_setMainViewScenePath := fun _ w => (on_setScenePath w, w);
  do_room_setSceneIndex := setSceneIndex;
  do_manager_setMainViewSceneIndex := setSceneIndex;
  do_room_setWritable := fun _ w => (on_setWritable w, w);
  do_manager_nextPage := fun w => (on_page w, w);
  do_manager_prevPage := fun w => (on_page w, w);
  do_room_cleanCurrentScene := fun _ w => (Normal tt, w);
  do_manager_addApp := fun _ w => (on_addApp w, w)
|}.

(** A room with three scenes, showing the second, where every collaborator
    call succeeds. *)
Definition plain (name : string) : SceneDefinition :=
  {| name := Some (Js.lit name); ppt := None |}.

Definition slide (name source : string) : SceneDefinition :=
  {| name := Some (Js.lit name);
     ppt := Some {| src := Js.lit source; width := 1280; height := 720;
                    previewURL := None |} |}.

Definition calm (with_manager : bool) : World :=
  {| manager := with_manager;
     index := 1;
     scene_list := [plain "a"; plain "b"; plain "c"];
     on_redo := Normal 0%Z;
     on_setScenePath := Normal tt;
     on_setWritable := Normal (Fulfilled tt);
     on_page := Normal (Fulfilled true);
     on_addApp := Normal (Fulfilled (Some (Js.lit "Slide-1"))) |}.

(** The same room when the SDK throws from redo, undo and setScenePath and
    rejects setWritable. *)
Definition failing (with_manager : bool) : World :=
  {| manager := with_manager;
     index := 1;
     scene_list := [plain "a"; plain "b"; plain "c"];
     on_redo := Throw (error "room is not writable");
     on_setScenePath := Throw (error "scene path is illegal");
     on_setWritable := Normal (Rejected (Some (error "room is not writable")));
     on_page := Normal (Rejected None);
     on_addApp := Normal Pending |}.

Definition deck : list SceneDefinition :=
  [ slide "1" "ppt://cdn.example.com/dynamicConvert/abc123/1.slide";
    slide "2" "pptx://host/path/dynamicConvert/task42/2.slide";
    plain "3" ].

(** Only the second scene is the first to match; a matching and a plain
    scene follow it. *)
Definition late_deck : list SceneDefinition :=
  [ plain "cover";
    slide "1" "ppt://cdn.example.com/dynamicConvert/abc123/1.slide";
    slide "2" "pptx://host/path/dynamicConvert/task42/2.slide";
    plain "end" ].

(** addApp options around [deck], as the host passes them. *)
Definition deck_options : AddAppOptions :=
  {| scenePath := Some (Js.lit "/deck");
     title := Some (Js.lit "Deck");
     scenes := deck |}.

(** No scene matches: no descriptor, a source that does not start with
    "ppt", and a source that starts with "ppt" and breaks the pattern. *)
Definition handout : list SceneDefinition :=
  [ plain "a";
    slide "b" "https://cdn.example.com/dynamicConvert/abc123/1.png";
    slide "c" "ppt://cdn.example.com/staticConvert/abc123/1.png" ].

End Scripted.

(* ================================================================== *)
(** ** Vocabulary of the statements *)

(** The part of [pptSrcRE] after [^pptx?]. *)
Definition pptSrcRE_tail : list RegExp.Node :=
  [ RegExp.Named "prefix"
      [ RegExp.Chars (Js.lit "://");
        RegExp.PlusLazy RegExp.NonSpace;
        RegExp.Chars (Js.lit "dynamicConvert") ];
    RegExp.Chars (Js.lit "/");
    RegExp.Named "taskId" [ RegExp.PlusGreedy RegExp.WordChar ];
    RegExp.Chars (Js.lit "/") ].

(** The continuation that ends a match. *)
Definition accept : RegExp.Cont := fun _ _ g => Some g.

(** [s] reads ppt[x]://<mid>dynamicConvert/<tid>/<rest>, with <mid> a
    non-empty run of non-space characters and <tid> a non-empty run of
    word characters. *)
Definition slide_source_shape (s x mid tid rest : JsString) : Prop :=
  s = Js.lit "ppt" ++ x ++ Js.lit "://" ++ mid ++ Js.lit "dynamicConvert"
        ++ Js.lit "/" ++ tid ++ Js.lit "/" ++ rest /\
  (x = [] \/ x = Js.lit "x") /\
  mid <> [] /\ forallb (RegExp.in_class RegExp.NonSpace) mid = true /\
  tid <> [] /\ forallb (RegExp.in_class RegExp.WordChar) tid = true.

(** What the stripped list holds for a scene. *)
Definition strip_scene (v : SceneDefinition) : SceneDefinition :=
  name_only (name v).

(** A scene whose slide source the pattern matches. *)
Definition matching (s : SceneDefinition) : Prop :=
  exists d x mid tid rest,
    ppt s = Some d /\ slide_source_shape (src d) x mid tid rest.

(** The parameter objects of the three window.manager.addApp calls. *)
Definition slide_request {Any} (opts : AddAppOptions) (r : SlideParams)
  : AddAppParams Any :=
  {| kind := Js.lit "Slide";
     options := SceneOptions {| scenePath := scenePath opts;
                                title := title opts;
                                scenes := scenesWithoutPPT r |};
     attributes := SlideAttributes (taskId r) (url r) |}.

Definition docs_request {Any} (opts : AddAppOptions) : AddAppParams Any :=
  {| kind := BuiltinApps_DocsViewer;
     options := SceneOptions {| scenePath := scenePath opts;
                                title := title opts;
                                scenes := scenes opts |};
     attributes := NoAttributes |}.

Definition host_request {Any} (kind : JsString) (options attributes : Any)
  : AddAppParams Any :=
  {| kind := kind;
     options := HostOptions options;
     attributes := HostAttributes attributes |}.

(** The collaborator that setScenePath and setSceneIndex address. *)
Definition scene_path_call {Any W} {sdk : Sdk Any W} (path : JsString) (w : W)
  : Completion unit * W :=
  if window_manager w then do_manager_setMainViewScenePath path w
  else do_room_setScenePath path w.

Definition scene_index_call {Any W} {sdk : Sdk Any W} (i : Z) (w : W)
  : Completion unit * W :=
  if window_manager w then do_manager_setMainViewSceneIndex i w
  else do_room_setSceneIndex i w.

(* ================================================================== *)
(** ** The other methods of src/src/bridge/Room.ts

    What registerRoom registers under "room" besides addApp and
    cleanScene, as far as the collaborator interface reaches. *)

Module RegisterRoom.

Section Methods.

Context {Any W : Type} {sdk : Sdk Any W}.

Local Abbreviation M := (M Any W).

Definition redo : M unit :=
  count <- call room_redo do_room_redo ;;
  responseCallback (Number count).

Definition undo : M unit :=
  count <- call room_undo do_room_undo ;;
  responseCallback (Number count).

Definition setScenePath (scenePath : JsString) : M unit :=
  try_catch
    (logger "setScenePath" ;;
     m <- read window_manager ;;
     (if m then
        call (manager_setMainViewScenePath scenePath)
             (do_manager_setMainViewScenePath scenePath)
      else
        call (room_setScenePath scenePath) (do_room_setScenePath scenePath)) ;;
     responseCallback (Stringified (JObject [])))
    (fun e => responseCallback (Stringified (error_payload e))).

Definition setWritable (writable : bool) : M unit :=
  p <- call (room_setWritable writable) (do_room_setWritable writable) ;;
  p' <- then_ p (fun _ =>
          w <- read isWritable ;;
          o <- read observerId ;;
          responseCallback
            (Stringified (JObject [("isWritable"%string, JBoolean w);
                                   ("observerId"%string, JNumber o)]))) ;;
  catch_ p' (fun error =>
    match error with
    | Some e => responseCallback (Stringified (error_payload e))
    | None => throw undefined_access       (* error.message of undefined *)
    end) ;;
  ret tt.

Definition setSceneIndex (index : Z) : M unit :=
  logger "setSceneIndex" ;;
  try_catch
    (m <- read window_manager ;;
     (if m then
        call (manager_setMainViewSceneIndex index)
             (do_manager_setMainViewSceneIndex index)
      else
        call (room_setSceneIndex index) (do_room_setSceneIndex index)) ;;
     responseCallback (Stringified (JObject [])))
    (fun error => responseCallback (Stringified (error_payload error))).

End Methods.

End RegisterRoom.

(* ================================================================== *)
(** ** Further vocabulary *)

(** A trace without the logger's entries. *)
Definition unlogged {Any} (t : list (Event Any)) : list (Event Any) :=
  filter (fun e => match e with Logged _ => false | _ => true end) t.

(** The room shows one of its scenes. *)
Definition in_range {Any W} {sdk : Sdk Any W} (w : W) : Prop :=
  (0 <= sceneState_index w
   < Z.of_nat (List.length (sceneState_scenes w)))%Z.

(** The contract of room.setSceneIndex that the page turns rely on: an
    index in range is stored, and neither the scenes nor the window
    manager change. *)
Definition setSceneIndex_stores {Any W} {sdk : Sdk Any W} : Prop :=
  forall (w : W) (j : Z),
    (0 <= j < Z.of_nat (List.length (sceneState_scenes w)))%Z ->
    exists w',
      do_room_setSceneIndex j w = (Normal tt, w') /\
      sceneState_index w' = j /\
      sceneState_scenes w' = sceneState_scenes w /\
      window_manager w' = window_manager w.

(** The request that addApp of src/unnamed/part_000 sends to
    window.manager.addApp. *)
Definition addApp_request {Any} (as_opts : Any -> AddAppOptions)
           (kind : JsString) (options attributes : Any) : AddAppParams Any :=
  if Js.eqb kind (Js.lit "Slide") then
    let opts := as_opts options in
    let r := RoomBridge.makeSlideParams (scenes opts) in
    if Js.truthy (taskId r) && Js.truthy (url r)
    then slide_request opts r
    else docs_request opts
  else host_request kind options attributes.

(** What the callback of addApp receives for a completion of
    window.manager.addApp. *)
Definition app_reply (c : Completion (Promise (option JsString)))
  : list Arg :=
  match c with
  | Normal (Fulfilled id) => [AppId id]
  | _ => []
  end.

(** What the callback of nextPage and prevPage receives in manager mode. *)
Definition page_reply (c : Completion (Promise bool)) : list Arg :=
  match c with
  | Normal (Fulfilled b) => [Boolean b]
  | _ => []
  end.

(** A room under a window manager that rejects the app: its addApp
    throws. *)
Definition unregistered : Scripted.World :=
  {| Scripted.manager := true;
     Scripted.index := 0;
     Scripted.scene_list := [Scripted.plain "a"];
     Scripted.on_redo := Normal 0%Z;
     Scripted.on_setScenePath := Normal tt;
     Scripted.on_setWritable := Normal (Fulfilled tt);
     Scripted.on_page := Normal (Fulfilled false);
     Scripted.on_addApp :=
       Throw (Scripted.error "app kind is not registered") |}.

(** addApp options around [Scripted.handout]. *)
Definition handout_options : AddAppOptions :=
  {| scenePath := Some (Js.lit "/handout");
     title := None;
     scenes := Scripted.handout |}.

(** A descriptor with a given source. *)
Definition descriptor (source : JsString) : PptDescription :=
  {| src := source; width := 1280; height := 720; previewURL := None |}.

(* ================================================================== *)
(** * Properties *)

(** ** Strings *)

Lemma strip_app p : forall s r, Js.strip p s = Some r -> s = p ++ r.
Proof.
  induction p as [|x p IH]; intros s r H; simpl in H.
  - now inversion H.
  - destruct s as [|y s]; [discriminate|].
    destruct (N.eqb x y) eqn:E; [|discriminate].
    apply N.eqb_eq in E. subst y. simpl. f_equal. now apply IH.
Qed.

Lemma strip_prefix p r : Js.strip p (p ++ r) = Some r.
Proof.
  induction p as [|x p IH]; simpl; [reflexivity|].
  now rewrite N.eqb_refl.
Qed.

Lemma js_eqb_eq a : forall b, Js.eqb a b = true <-> a = b.
Proof.
  induction a as [|x a IH]; intros [|y b]; simpl; split; intros H;
    try reflexivity; try discriminate.
  - apply andb_true_iff in H. destruct H as [Hx Hab].
    apply N.eqb_eq in Hx. apply IH in Hab. now subst.
  - inversion H; subst. rewrite N.eqb_refl. simpl. now apply IH.
Qed.

Lemma js_eqb_neq a b : a <> b -> Js.eqb a b = false.
Proof.
  intros H. destruct (Js.eqb a b) eqn:E; [|reflexivity].
  apply js_eqb_eq in E. contradiction.
Qed.

Lemma truthy_nonempty s : Js.truthy s = true <-> s <> [].
Proof.
  destruct s; simpl; split; intros H; congruence.
Qed.

Lemma firstn_exact (A : Type) (a b : list A) n :
  n = List.length a -> firstn n (a ++ b) = a.
Proof.
  intros ->. rewrite firstn_app, Nat.sub_diag, firstn_all. simpl.
  apply app_nil_r.
Qed.

Lemma firstn_exact3 (A : Type) (a b c d : list A) n :
  n = List.length a + List.length b + List.length c ->
  firstn n (a ++ b ++ c ++ d) = a ++ b ++ c.
Proof.
  intros ->. rewrite (app_assoc b c d), (app_assoc a (b ++ c) d).
  apply firstn_exact. rewrite !length_app. lia.
Qed.

(** ** The quantifiers of the matcher *)

Section Quantifiers.

Variable k : RegExp.CharClass.

(** A successful [\S+?] took a non-empty run of the class and its
    continuation succeeded on what follows. *)
Lemma plus_lazy_inv : forall inp pos c r,
  RegExp.plus_lazy k pos inp c = Some r ->
  exists taken rest,
    inp = taken ++ rest /\ taken <> [] /\
    forallb (RegExp.in_class k) taken = true /\
    c (pos + List.length taken) rest = Some r.
Proof.
  induction inp as [|ch inp IH]; intros pos c r H; simpl in H;
    [discriminate|].
  destruct (RegExp.in_class k ch) eqn:E; [|discriminate].
  destruct (c (S pos) inp) eqn:Ec.
  - inversion H; subst. exists [ch], inp. simpl.
    rewrite E, Nat.add_1_r. repeat split; auto. discriminate.
  - apply IH in H. destruct H as (t & rest & -> & _ & Hall & Hc).
    exists (ch :: t), rest. simpl. rewrite E, Hall, Nat.add_succ_r.
    repeat split; auto. discriminate.
Qed.

Lemma plus_greedy_inv : forall inp pos c r,
  RegExp.plus_greedy k pos inp c = Some r ->
  exists taken rest,
    inp = taken ++ rest /\ taken <> [] /\
    forallb (RegExp.in_class k) taken = true /\
    c (pos + List.length taken) rest = Some r.
Proof.
  induction inp as [|ch inp IH]; intros pos c r H; simpl in H;
    [discriminate|].
  destruct (RegExp.in_class k ch) eqn:E; [|discriminate].
  destruct (RegExp.plus_greedy k (S pos) inp c) eqn:Ec.
  - inversion H; subst. apply IH in Ec.
    destruct Ec as (t & rest & -> & _ & Hall & Hc).
    exists (ch :: t), rest. simpl. rewrite E, Hall, Nat.add_succ_r.
    repeat split; auto. discriminate.
  - exists [ch], inp. simpl. rewrite E, Nat.add_1_r.
    repeat split; auto. discriminate.
Qed.

(** If the continuation succeeds after some non-empty run of the class,
    the quantifier succeeds (possibly on another run). *)
Lemma plus_lazy_some : forall taken rest pos c,
  taken <> [] -> forallb (RegExp.in_class k) taken = true ->
  c (pos + List.length taken) rest <> None ->
  RegExp.plus_lazy k pos (taken ++ rest) c <> None.
Proof.
  induction taken as [|ch t IH]; intros rest pos c Hne Hall Hc;
    [contradiction|].
  simpl in *. apply andb_true_iff in Hall. destruct Hall as [Hch Hall].
  rewrite Hch. destruct (c (S pos) (t ++ rest)) eqn:Ec; [discriminate|].
  destruct t as [|ch' t'].
  - simpl in *. rewrite Nat.add_1_r in Hc. contradiction.
  - apply IH; auto; [discriminate|]. now rewrite Nat.add_succ_r in Hc.
Qed.

Lemma plus_greedy_some : forall taken rest pos c,
  taken <> [] -> forallb (RegExp.in_class k) taken = true ->
  c (pos + List.length taken) rest <> None ->
  RegExp.plus_greedy k pos (taken ++ rest) c <> None.
Proof.
  induction taken as [|ch t IH]; intros rest pos c Hne Hall Hc;
    [contradiction|].
  simpl in *. apply andb_true_iff in Hall. destruct Hall as [Hch Hall].
  rewrite Hch.
  destruct (RegExp.plus_greedy k (S pos) (t ++ rest) c) eqn:Ec;
    [discriminate|].
  destruct t as [|ch' t'].
  - simpl in *. now rewrite Nat.add_1_r in Hc.
  - exfalso. revert Ec. apply IH; auto; [discriminate|].
    now rewrite Nat.add_succ_r in Hc.
Qed.

End Quantifiers.

(** ** The pattern of makeSlideParams *)

Lemma pptSrcRE_tail_inv pos inp g r :
  RegExp.match_seq pptSrcRE_tail pos inp g accept = Some r ->
  exists mid tid rest,
    inp = Js.lit "://" ++ mid ++ Js.lit "dynamicConvert"
            ++ Js.lit "/" ++ tid ++ Js.lit "/" ++ rest /\
    mid <> [] /\ forallb (RegExp.in_class RegExp.NonSpace) mid = true /\
    tid <> [] /\ forallb (RegExp.in_class RegExp.WordChar) tid = true /\
    r = ("taskId"%string, tid)
          :: ("prefix"%string, Js.lit "://" ++ mid ++ Js.lit "dynamicConvert")
          :: g.
Proof.
  unfold pptSrcRE_tail, accept.
  cbn [RegExp.match_seq RegExp.match_node]. intros H.
  destruct (Js.strip (Js.lit "://") inp) as [r1|] eqn:E1; [|discriminate].
  apply strip_app in E1.
  apply plus_lazy_inv in H. destruct H as (mid & r2 & -> & Hmid & Amid & H).
  destruct (Js.strip (Js.lit "dynamicConvert") r2) as [r3|] eqn:E3;
    [|discriminate].
  apply strip_app in E3.
  destruct (Js.strip (Js.lit "/") r3) as [r4|] eqn:E4; [|discriminate].
  apply strip_app in E4.
  apply plus_greedy_inv in H. destruct H as (tid & r5 & -> & Htid & Atid & H).
  destruct (Js.strip (Js.lit "/") r5) as [r6|] eqn:E6; [|discriminate].
  apply strip_app in E6. inversion H; clear H. subst.
  exists mid, tid, r6. repeat split; auto.
  f_equal; [|f_equal]; f_equal.
  - apply firstn_exact. lia.
  - apply firstn_exact3. simpl. lia.
Qed.

Lemma pptSrcRE_tail_some pos g mid tid rest :
  mid <> [] -> forallb (RegExp.in_class RegExp.NonSpace) mid = true ->
  tid <> [] -> forallb (RegExp.in_class RegExp.WordChar) tid = true ->
  RegExp.match_seq pptSrcRE_tail pos
    (Js.lit "://" ++ mid ++ Js.lit "dynamicConvert"
       ++ Js.lit "/" ++ tid ++ Js.lit "/" ++ rest) g accept <> None.
Proof.
  intros Hmid Amid Htid Atid. unfold pptSrcRE_tail, accept.
  cbn [RegExp.match_seq RegExp.match_node].
  rewrite strip_prefix.
  apply plus_lazy_some; auto.
  rewrite strip_prefix, strip_prefix.
  apply plus_greedy_some; auto.
  rewrite strip_prefix. discriminate.
Qed.

(** The pattern starts with [^]: no match starts after index 0. *)
Lemma pptSrcRE_anchored : forall inp pos,
  RegExp.exec_from pptSrcRE (S pos) inp = None.
Proof.
  induction inp as [|c inp IH]; intros pos; simpl; auto.
Qed.

Lemma pptSrcRE_unfold s :
  RegExp.match_seq pptSrcRE 0 s [] accept =
  match Js.strip (Js.lit "ppt") s with
  | Some rest =>
      match Js.strip (Js.lit "x") rest with
      | Some rest' =>
          match RegExp.match_seq pptSrcRE_tail 4 rest' [] accept with
          | Some r => Some r
          | None => RegExp.match_seq pptSrcRE_tail 3 rest [] accept
          end
      | None => RegExp.match_seq pptSrcRE_tail 3 rest [] accept
      end
  | None => None
  end.
Proof. reflexivity. Qed.

Lemma pptSrcRE_exec s :
  RegExp.exec pptSrcRE s =
  match RegExp.match_seq pptSrcRE 0 s [] accept with
  | Some g => Some {| RegExp.groups := Some g |}
  | None => None
  end.
Proof.
  unfold RegExp.exec. destruct s as [|c s].
  - reflexivity.
  - change (RegExp.exec_from pptSrcRE 0 (c :: s))
      with (match RegExp.match_seq pptSrcRE 0 (c :: s) [] accept with
            | Some g => Some {| RegExp.groups := Some g |}
            | None => RegExp.exec_from pptSrcRE 1 s
            end).
    now rewrite pptSrcRE_anchored.
Qed.

(** What a successful exec has matched and captured. *)
Lemma pptSrcRE_exec_inv s m :
  RegExp.exec pptSrcRE s = Some m ->
  exists x mid tid rest,
    slide_source_shape s x mid tid rest /\
    RegExp.groups m =
      Some [("taskId"%string, tid);
            ("prefix"%string, Js.lit "://" ++ mid ++ Js.lit "dynamicConvert")].
Proof.
  rewrite pptSrcRE_exec, pptSrcRE_unfold. intros H.
  destruct (Js.strip (Js.lit "ppt") s) as [r1|] eqn:E1; [|discriminate].
  apply strip_app in E1. subst s.
  assert (Hplain : forall g,
    RegExp.match_seq pptSrcRE_tail 3 r1 [] accept = Some g ->
    Some {| RegExp.groups := Some g |} = Some m ->
    exists x mid tid rest,
      slide_source_shape (Js.lit "ppt" ++ r1) x mid tid rest /\
      RegExp.groups m =
        Some [("taskId"%string, tid);
              ("prefix"%string,
               Js.lit "://" ++ mid ++ Js.lit "dynamicConvert")]).
  { intros g Hg Hm. apply pptSrcRE_tail_inv in Hg.
    destruct Hg as (mid & tid & rest & -> & ? & ? & ? & ? & ->).
    inversion Hm; subst m. exists [], mid, tid, rest.
    unfold slide_source_shape. simpl. repeat split; auto. }
  destruct (Js.strip (Js.lit "x") r1) as [r2|] eqn:E2.
  - destruct (RegExp.match_seq pptSrcRE_tail 4 r2 [] accept) as [g|] eqn:E3.
    + apply strip_app in E2. subst r1.
      apply pptSrcRE_tail_inv in E3.
      destruct E3 as (mid & tid & rest & -> & ? & ? & ? & ? & ->).
      inversion H; subst m. exists (Js.lit "x"), mid, tid, rest.
      unfold slide_source_shape. simpl. repeat split; auto.
    + destruct (RegExp.match_seq pptSrcRE_tail 3 r1 [] accept) as [g|] eqn:E4;
        [|discriminate].
      now apply (Hplain g).
  - destruct (RegExp.match_seq pptSrcRE_tail 3 r1 [] accept) as [g|] eqn:E4;
      [|discriminate].
    now apply (Hplain g).
Qed.

(** Every string of the shape is matched. *)
Lemma pptSrcRE_exec_some s x mid tid rest :
  slide_source_shape s x mid tid rest -> RegExp.exec pptSrcRE s <> None.
Proof.
  intros (-> & Hx & Hmid & Amid & Htid & Atid).
  rewrite pptSrcRE_exec, pptSrcRE_unfold, strip_prefix.
  destruct Hx as [-> | ->].
  - simpl app at 1.
    pose proof (@pptSrcRE_tail_some 3 [] mid tid rest Hmid Amid Htid Atid) as T.
    destruct (RegExp.match_seq pptSrcRE_tail 3 _ [] accept) eqn:E3;
      [|contradiction].
    destruct (Js.strip (Js.lit "x") _); [|discriminate].
    destruct (RegExp.match_seq pptSrcRE_tail 4 _ [] accept); discriminate.
  - rewrite strip_prefix.
    pose proof (@pptSrcRE_tail_some 4 [] mid tid rest Hmid Amid Htid Atid) as T.
    destruct (RegExp.match_seq pptSrcRE_tail 4 _ [] accept);
      [discriminate|contradiction].
Qed.

(** ** The loop body *)

Lemma slide_source_inv p t u :
  slide_source p = Some (t, u) ->
  exists d x mid rest,
    p = Some d /\ slide_source_shape (src d) x mid t rest /\
    u = Js.lit "https" ++ Js.lit "://" ++ mid ++ Js.lit "dynamicConvert".
Proof.
  unfold slide_source. destruct p as [d|]; [|discriminate].
  destruct (negb (Js.startsWith (src d) (Js.lit "ppt"))); [discriminate|].
  destruct (RegExp.exec pptSrcRE (src d)) as [m|] eqn:E; [|discriminate].
  apply pptSrcRE_exec_inv in E. destruct E as (x & mid & tid & rest & Hs & ->).
  simpl. intros H. inversion H; subst.
  exists d, x, mid, rest. auto.
Qed.

Lemma slide_source_some d x mid tid rest :
  slide_source_shape (src d) x mid tid rest ->
  slide_source (Some d) <> None.
Proof.
  intros Hs. unfold slide_source.
  assert (Hp : Js.startsWith (src d) (Js.lit "ppt") = true).
  { destruct Hs as (-> & _). unfold Js.startsWith.
    now rewrite strip_prefix. }
  rewrite Hp. simpl negb. cbv iota.
  destruct (RegExp.exec pptSrcRE (src d)) as [m|] eqn:E.
  - apply pptSrcRE_exec_inv in E.
    destruct E as (x' & mid' & tid' & rest' & _ & ->). simpl. discriminate.
  - exfalso. revert E. exact (pptSrcRE_exec_some Hs).
Qed.

(** The loop body skips a scene exactly when the pattern does not match
    its slide source. *)
Lemma slide_source_none s : slide_source (ppt s) = None <-> ~ matching s.
Proof.
  split.
  - intros H (d & x & mid & tid & rest & Hd & Hs). rewrite Hd in H.
    revert H. exact (slide_source_some _ Hs).
  - intros H. destruct (slide_source (ppt s)) as [[t u]|] eqn:E; auto.
    exfalso. apply H. apply slide_source_inv in E.
    destruct E as (d & x & mid & rest & Hd & Hs & _).
    now exists d, x, mid, t, rest.
Qed.

(** A scene without a ppt descriptor, or whose source does not start with
    "ppt", does not match. *)
Lemma not_matching_cases s :
  match ppt s with
  | None => True
  | Some d => Js.startsWith (src d) (Js.lit "ppt") = false
  end ->
  ~ matching s.
Proof.
  intros H. apply slide_source_none. unfold slide_source.
  destruct (ppt s) as [d|]; auto. now rewrite H.
Qed.

(** ** The loops *)

Lemma RoomBridge_scan_no_match : forall scs a b,
  (forall s, In s scs -> slide_source (ppt s) = None) ->
  RoomBridge.scan scs a b = (a, b).
Proof.
  induction scs as [|s scs IH]; intros a b H; simpl; auto.
  rewrite (H s); [|now left]. apply IH. intros s' Hs'. apply H. now right.
Qed.

Lemma RoomBridge_scan_first_match : forall pre s post t u a b,
  (forall x, In x pre -> slide_source (ppt x) = None) ->
  slide_source (ppt s) = Some (t, u) ->
  RoomBridge.scan (pre ++ s :: post) a b = (t, u).
Proof.
  induction pre as [|x pre IH]; intros s post t u a b Hpre Hs; simpl.
  - now rewrite Hs.
  - rewrite (Hpre x); [|now left]. apply IH; auto.
    intros y Hy. apply Hpre. now right.
Qed.

Lemma Room_scan_no_match : forall scs acc a b,
  (forall s, In s scs -> slide_source (ppt s) = None) ->
  Room.scan scs acc a b = (acc ++ map strip_scene scs, a, b).
Proof.
  induction scs as [|s scs IH]; intros acc a b H; simpl.
  - now rewrite app_nil_r.
  - rewrite (H s); [|now left]. rewrite IH.
    + now rewrite <- app_assoc.
    + intros s' Hs'. apply H. now right.
Qed.

Lemma Room_scan_first_match : forall pre s post t u acc a b,
  (forall x, In x pre -> slide_source (ppt x) = None) ->
  slide_source (ppt s) = Some (t, u) ->
  Room.scan (pre ++ s :: post) acc a b =
  (acc ++ map strip_scene (pre ++ [s]), t, u).
Proof.
  induction pre as [|x pre IH]; intros s post t u acc a b Hpre Hs; simpl.
  - now rewrite Hs.
  - rewrite (Hpre x); [|now left]. rewrite (IH s post t u); auto.
    + now rewrite <- app_assoc.
    + intros y Hy. apply Hpre. now right.
Qed.

(** The bridge of src/unnamed/part_000 strips every scene, whatever the
    loop does. *)
Lemma RoomBridge_stripped scs :
  scenesWithoutPPT (RoomBridge.makeSlideParams scs) = map strip_scene scs.
Proof.
  unfold RoomBridge.makeSlideParams.
  now destruct (RoomBridge.scan scs [] []).
Qed.

(** First match wins, in both bridges: the scenes before the first
    matching one are skipped and the scenes after it do not change the
    task identifier and the url. In Room.ts the stripped list ends at the
    matching scene. *)
Lemma first_match_wins pre s post t u :
  (forall x, In x pre -> ~ matching x) ->
  slide_source (ppt s) = Some (t, u) ->
  RoomBridge.makeSlideParams (pre ++ s :: post) =
    {| scenesWithoutPPT := map strip_scene (pre ++ s :: post);
       taskId := t; url := u |} /\
  Room.makeSlideParams (pre ++ s :: post) =
    {| scenesWithoutPPT := map strip_scene (pre ++ [s]);
       taskId := t; url := u |}.
Proof.
  intros Hpre Hs.
  assert (Hpre' : forall x, In x pre -> slide_source (ppt x) = None).
  { intros x Hx. apply slide_source_none. auto. }
  unfold RoomBridge.makeSlideParams, Room.makeSlideParams.
  rewrite (@RoomBridge_scan_first_match pre s post t u [] [] Hpre' Hs).
  rewrite (@Room_scan_first_match pre s post t u [] [] [] Hpre' Hs).
  split; reflexivity.
Qed.

(* ================================================================== *)
(** * The slide-source classifier *)

(** C2. The stripped list has the length of the input list and holds, at
    every index, the name-only copy of the input scene: this holds for
    makeSlideParams of src/unnamed/part_000 on every scene list. In
    src/src/bridge/Room.ts the loop leaves at the first match, before the
    later scenes are pushed: on the three scenes of [Scripted.deck], whose
    first scene matches, the stripped list has one entry. *)
Theorem makeSlideParams_stripped_list :
  (forall scs : list SceneDefinition,
     let out := scenesWithoutPPT (RoomBridge.makeSlideParams scs) in
     List.length out = List.length scs /\
     forall i, nth_error out i = option_map strip_scene (nth_error scs i)) /\
  List.length Scripted.deck = 3 /\
  scenesWithoutPPT (Room.makeSlideParams Scripted.deck) =
    [name_only (Some (Js.lit "1"))].
Proof.
  split; [|split; reflexivity].
  intros scs out. subst out. rewrite RoomBridge_stripped. split.
  - apply length_map.
  - intros i. apply nth_error_map.
Qed.

(** C3. On [Scripted.late_deck] both bridges return the task identifier
    and the url of the second scene, the first that matches, and the
    matching scene after it changes neither. The bridge of
    src/unnamed/part_000 keeps the later scenes, name-only, in the
    stripped list; src/src/bridge/Room.ts drops them. *)
Theorem makeSlideParams_later_scenes :
  RoomBridge.makeSlideParams Scripted.late_deck =
    {| scenesWithoutPPT :=
         [ name_only (Some (Js.lit "cover")); name_only (Some (Js.lit "1"));
           name_only (Some (Js.lit "2")); name_only (Some (Js.lit "end")) ];
       taskId := Js.lit "abc123";
       url := Js.lit "https://cdn.example.com/dynamicConvert" |} /\
  Room.makeSlideParams Scripted.late_deck =
    {| scenesWithoutPPT :=
         [ name_only (Some (Js.lit "cover")); name_only (Some (Js.lit "1")) ];
       taskId := Js.lit "abc123";
       url := Js.lit "https://cdn.example.com/dynamicConvert" |}.
Proof. split; reflexivity. Qed.

(** C4. When no scene's slide source matches the pattern, the task
    identifier and the url are both the empty string and the stripped list
    has one name-only entry per input scene, in both bridges. *)
Theorem makeSlideParams_no_match (scs : list SceneDefinition) :
  (forall s, In s scs -> ~ matching s) ->
  RoomBridge.makeSlideParams scs =
    {| scenesWithoutPPT := map strip_scene scs; taskId := []; url := [] |} /\
  Room.makeSlideParams scs =
    {| scenesWithoutPPT := map strip_scene scs; taskId := []; url := [] |} /\
  List.length (map strip_scene scs) = List.length scs.
Proof.
  intros H.
  assert (H' : forall s, In s scs -> slide_source (ppt s) = None).
  { intros s Hs. apply slide_source_none. auto. }
  unfold RoomBridge.makeSlideParams, Room.makeSlideParams.
  rewrite (@RoomBridge_scan_no_match scs [] [] H').
  rewrite (@Room_scan_no_match scs [] [] [] H').
  repeat split. apply length_map.
Qed.

Lemma makeSlideParams_no_match_witness :
  (forall s, In s Scripted.handout -> ~ matching s) /\
  RoomBridge.makeSlideParams Scripted.handout =
    {| scenesWithoutPPT := map strip_scene Scripted.handout;
       taskId := []; url := [] |} /\
  Room.makeSlideParams Scripted.handout =
    {| scenesWithoutPPT := map strip_scene Scripted.handout;
       taskId := []; url := [] |} /\
  List.length (map strip_scene Scripted.handout) = List.length Scripted.handout.
Proof.
  assert (H : forall s, In s Scripted.handout -> ~ matching s).
  { intros s [<-|[<-|[<-|[]]]].
    - apply not_matching_cases. exact I.
    - apply not_matching_cases. reflexivity.
    - apply slide_source_none. reflexivity. }
  split; [exact H|]. exact (@makeSlideParams_no_match Scripted.handout H).
Defined.

(** C5. When the pattern matches the slide source of a scene, the url is
    "https" followed by the matched text from "://" through
    "dynamicConvert" and the task identifier is the word after it, whether
    the source starts with "ppt" or "pptx"; the two sources of the
    specification give abc123 with https://cdn.example.com/dynamicConvert
    and task42 with https://host/path/dynamicConvert. *)
Theorem makeSlideParams_https_url
        (s : SceneDefinition) (d : PptDescription)
        (x mid tid rest : JsString) :
  ppt s = Some d ->
  slide_source_shape (src d) x mid tid rest ->
  (exists x' mid' tid' rest',
     slide_source_shape (src d) x' mid' tid' rest' /\
     RoomBridge.makeSlideParams [s] =
       {| scenesWithoutPPT := [strip_scene s];
          taskId := tid';
          url := Js.lit "https"
                   ++ (Js.lit "://" ++ mid' ++ Js.lit "dynamicConvert") |} /\
     Room.makeSlideParams [s] = RoomBridge.makeSlideParams [s]) /\
  RoomBridge.makeSlideParams
    [Scripted.slide "1" "ppt://cdn.example.com/dynamicConvert/abc123/1.slide"] =
    {| scenesWithoutPPT := [name_only (Some (Js.lit "1"))];
       taskId := Js.lit "abc123";
       url := Js.lit "https://cdn.example.com/dynamicConvert" |} /\
  RoomBridge.makeSlideParams
    [Scripted.slide "2" "pptx://host/path/dynamicConvert/task42/2.slide"] =
    {| scenesWithoutPPT := [name_only (Some (Js.lit "2"))];
       taskId := Js.lit "task42";
       url := Js.lit "https://host/path/dynamicConvert" |}.
Proof.
  intros Hd Hs. split; [|split; reflexivity].
  destruct (slide_source (ppt s)) as [[t u]|] eqn:E.
  - pose proof (slide_source_inv _ E) as (d' & x' & mid' & rest' & Hd' & Hs' & ->).
    rewrite Hd in Hd'. inversion Hd'; subst d'.
    exists x', mid', t, rest'. split; [exact Hs'|].
    unfold RoomBridge.makeSlideParams, Room.makeSlideParams. simpl.
    rewrite E. split; reflexivity.
  - exfalso. rewrite Hd in E. revert E. exact (slide_source_some _ Hs).
Qed.

Lemma makeSlideParams_https_url_witness :
  let s := Scripted.slide "2" "pptx://host/path/dynamicConvert/task42/2.slide" in
  exists x' mid' tid' rest',
    slide_source_shape (Js.lit "pptx://host/path/dynamicConvert/task42/2.slide")
                       x' mid' tid' rest' /\
    RoomBridge.makeSlideParams [s] =
      {| scenesWithoutPPT := [strip_scene s];
         taskId := tid';
         url := Js.lit "https"
                  ++ (Js.lit "://" ++ mid' ++ Js.lit "dynamicConvert") |} /\
    Room.makeSlideParams [s] = RoomBridge.makeSlideParams [s].
Proof.
  intros s.
  refine (proj1 (@makeSlideParams_https_url s
            {| src := Js.lit "pptx://host/path/dynamicConvert/task42/2.slide";
               width := 1280; height := 720; previewURL := None |}
            (Js.lit "x") (Js.lit "host/path/") (Js.lit "task42")
            (Js.lit "2.slide") eq_refl _)).
  unfold slide_source_shape. simpl.
  repeat split; try discriminate. now right.
Defined.

(* ================================================================== *)
(** * The bridge methods *)

Ltac run :=
  unfold bind, read, ret, throw, try_catch, call, then_, catch_,
    responseCallback, logger, console_log, emit; simpl.

Ltac settle :=
  match goal with
  | |- context [do_manager_addApp ?p ?w] =>
      destruct (do_manager_addApp p w) as [[[?|?|]|?] ?]; simpl
  end.

Section Methods.

Context {Any W : Type} {sdk : Sdk Any W}.
Variable as_opts : Any -> AddAppOptions.

(** *** addApp *)

Lemma RoomBridge_addApp_Slide options attributes w :
  window_manager w = true ->
  let opts := as_opts options in
  let r := RoomBridge.makeSlideParams (scenes opts) in
  calls (trace (RoomBridge.addApp as_opts (Js.lit "Slide")
                                  options attributes w)) =
    [manager_addApp (if Js.truthy (taskId r) && Js.truthy (url r)
                     then slide_request opts r else docs_request opts)].
Proof.
  intros Hm opts r.
  unfold RoomBridge.addApp, RoomBridge.addSlideApp,
    RoomBridge.manager_bang_addApp.
  fold opts. fold r. unfold slide_request, docs_request.
  run. rewrite Hm.
  destruct (Js.truthy (taskId r) && Js.truthy (url r)); rewrite Hm; simpl;
    settle; reflexivity.
Qed.

Lemma Room_addApp_Slide options attributes w :
  window_manager w = true ->
  let opts := as_opts options in
  let r := Room.makeSlideParams (scenes opts) in
  calls (trace (Room.addApp as_opts (Js.lit "Slide")
                            options attributes w)) =
    [manager_addApp (if Js.truthy (taskId r) && Js.truthy (url r)
                     then slide_request opts r else docs_request opts)].
Proof.
  intros Hm opts r.
  unfold Room.addApp, Room.addSlideApp, Room.manager_bang_addApp.
  fold opts. fold r. unfold slide_request, docs_request.
  run. rewrite Hm.
  destruct (Js.truthy (taskId r) && Js.truthy (url r)); rewrite Hm; simpl;
    settle; reflexivity.
Qed.

Lemma both_truthy (r : SlideParams) :
  Js.truthy (taskId r) && Js.truthy (url r) = true <->
  taskId r <> [] /\ url r <> [].
Proof.
  rewrite andb_true_iff, !truthy_nonempty. tauto.
Qed.

(** C6. With a window manager, addApp of any kind other than "Slide" makes
    one window.manager.addApp call whose kind, options and attributes are
    the values received; the options are never read through the
    AddAppOptions cast, the only way to the classifier, so the outcome is
    the same for every reading of them. Both bridges. *)
Theorem addApp_other_kind_forwarded
        (kind : JsString) (options attributes : Any) (w : W) :
  kind <> Js.lit "Slide" ->
  window_manager w = true ->
  calls (trace (RoomBridge.addApp as_opts kind options attributes w)) =
    [manager_addApp (host_request kind options attributes)] /\
  calls (trace (Room.addApp as_opts kind options attributes w)) =
    [manager_addApp (host_request kind options attributes)] /\
  (forall as_opts' : Any -> AddAppOptions,
     RoomBridge.addApp as_opts' kind options attributes w =
     RoomBridge.addApp as_opts kind options attributes w /\
     Room.addApp as_opts' kind options attributes w =
     Room.addApp as_opts kind options attributes w).
Proof.
  intros Hk Hm. apply js_eqb_neq in Hk.
  unfold RoomBridge.addApp, Room.addApp, host_request. run. rewrite Hm, Hk.
  repeat split; settle; reflexivity.
Qed.

(** C8. Without a window manager, addApp of kind "Slide" calls no
    collaborator and never invokes the response callback, with a result or
    with an error payload; the method returns normally and nothing is left
    pending. The callback stays silent for every other kind too. Both
    bridges. *)
Theorem addApp_without_manager_silent (options attributes : Any) (w : W) :
  window_manager w = false ->
  RoomBridge.addApp as_opts (Js.lit "Slide") options attributes w =
    {| trace := []; world := w; result := Normal tt |} /\
  Room.addApp as_opts (Js.lit "Slide") options attributes w =
    {| trace := [Logged "addApp"]; world := w; result := Normal tt |} /\
  (forall kind : JsString,
     responses
       (trace (RoomBridge.addApp as_opts kind options attributes w)) = [] /\
     responses
       (trace (Room.addApp as_opts kind options attributes w)) = []).
Proof.
  intros Hm. unfold RoomBridge.addApp, Room.addApp. run. rewrite Hm.
  repeat split.
Qed.

(** *** nextPage and prevPage *)

Lemma nextPage_single w :
  window_manager w = false ->
  let i := sceneState_index w in
  let n := Z.of_nat (List.length (sceneState_scenes w)) in
  let o := RoomBridge.nextPage w in
  ((i + 1 < n)%Z ->
     calls (trace o) = [room_setSceneIndex (i + 1)%Z] /\
     world o = snd (do_room_setSceneIndex (i + 1)%Z w) /\
     (fst (do_room_setSceneIndex (i + 1)%Z w) = Normal tt ->
      responses (trace o) = [Boolean true] /\ result o = Normal tt)) /\
  (~ (i + 1 < n)%Z ->
     o = {| trace := [Responded (Boolean false)];
            world := w; result := Normal tt |}).
Proof.
  intros Hm i n o. subst o. unfold RoomBridge.nextPage. run. rewrite Hm.
  fold i. fold n. split; intros H.
  - apply Z.ltb_lt in H. rewrite H.
    destruct (do_room_setSceneIndex (i + 1)%Z w) as [[[]|e] w']; simpl;
      repeat split; auto; discriminate.
  - apply Z.ltb_nlt in H. rewrite H. reflexivity.
Qed.

Lemma prevPage_single w :
  window_manager w = false ->
  let i := sceneState_index w in
  let o := RoomBridge.prevPage w in
  ((i - 1 >= 0)%Z ->
     calls (trace o) = [room_setSceneIndex (i - 1)%Z] /\
     world o = snd (do_room_setSceneIndex (i - 1)%Z w) /\
     (fst (do_room_setSceneIndex (i - 1)%Z w) = Normal tt ->
      responses (trace o) = [Boolean true] /\ result o = Normal tt)) /\
  (~ (i - 1 >= 0)%Z ->
     o = {| trace := [Responded (Boolean false)];
            world := w; result := Normal tt |}).
Proof.
  intros Hm i o. subst o. unfold RoomBridge.prevPage. run. rewrite Hm.
  fold i. split; intros H.
  - assert (H' : (i - 1 >=? 0)%Z = true) by (apply Z.geb_le; lia).
    rewrite H'.
    destruct (do_room_setSceneIndex (i - 1)%Z w) as [[[]|e] w']; simpl;
      repeat split; auto; discriminate.
  - assert (H' : (i - 1 >=? 0)%Z = false).
    { destruct (i - 1 >=? 0)%Z eqn:E; auto. apply Z.geb_le in E. lia. }
    rewrite H'. reflexivity.
Qed.

(** C9. Single-room mode, in a room that shows one of its scenes and whose
    setSceneIndex stores an index in range. nextPage calls
    setSceneIndex(index + 1) and answers true exactly when index + 1 is
    less than the number of scenes, and otherwise answers false and calls
    nothing, so the index stays; prevPage does the same with index - 1 and
    the test index - 1 >= 0. *)
Theorem page_turn_single_room (w : W) :
  let i := sceneState_index w in
  let n := Z.of_nat (List.length (sceneState_scenes w)) in
  let next := RoomBridge.nextPage w in
  let prev := RoomBridge.prevPage w in
  window_manager w = false ->
  (0 <= i < n)%Z ->
  (forall j, (0 <= j < n)%Z ->
     exists w', do_room_setSceneIndex j w = (Normal tt, w') /\
                sceneState_index w' = j) ->
  ((i + 1 < n)%Z ->
     calls (trace next) = [room_setSceneIndex (i + 1)%Z] /\
     responses (trace next) = [Boolean true] /\
     sceneState_index (world next) = (i + 1)%Z) /\
  (~ (i + 1 < n)%Z ->
     calls (trace next) = [] /\
     responses (trace next) = [Boolean false] /\
     world next = w) /\
  ((i - 1 >= 0)%Z ->
     calls (trace prev) = [room_setSceneIndex (i - 1)%Z] /\
     responses (trace prev) = [Boolean true] /\
     sceneState_index (world prev) = (i - 1)%Z) /\
  (~ (i - 1 >= 0)%Z ->
     calls (trace prev) = [] /\
     responses (trace prev) = [Boolean false] /\
     world prev = w).
Proof.
  intros i n next prev Hm Hi Hset.
  destruct (nextPage_single w Hm) as [Nyes Nno].
  destruct (prevPage_single w Hm) as [Pyes Pno].
  fold i in Nyes, Nno, Pyes, Pno. fold n in Nyes, Nno.
  fold next in Nyes, Nno. fold prev in Pyes, Pno.
  repeat split.
  - now apply Nyes.
  - destruct (Hset (i + 1)%Z) as (w' & E & _); [lia|].
    apply Nyes in H. destruct H as (_ & _ & R). apply R. now rewrite E.
  - destruct (Hset (i + 1)%Z) as (w' & E & Ei); [lia|].
    apply Nyes in H. destruct H as (_ & Hw & _). now rewrite Hw, E.
  - now rewrite (Nno H).
  - now rewrite (Nno H).
  - now rewrite (Nno H).
  - now apply Pyes.
  - destruct (Hset (i - 1)%Z) as (w' & E & _); [lia|].
    apply Pyes in H. destruct H as (_ & _ & R). apply R. now rewrite E.
  - destruct (Hset (i - 1)%Z) as (w' & E & Ei); [lia|].
    apply Pyes in H. destruct H as (_ & Hw & _). now rewrite Hw, E.
  - now rewrite (Pno H).
  - now rewrite (Pno H).
  - now rewrite (Pno H).
Qed.

(** *** cleanScene *)

(** C10. cleanScene computes [retain], false for an undefined argument,
    and then passes the argument itself to room.cleanCurrentScene: for an
    undefined [retainPpt] the room receives undefined, not false. Both
    bridges. *)
Theorem cleanScene_passes_raw_retainPpt (retainPpt : option bool) (w : W) :
  RoomBridge.cleanScene_retain None = false /\
  Room.cleanScene_retain None = false /\
  calls (trace (RoomBridge.cleanScene retainPpt w)) =
    [room_cleanCurrentScene retainPpt] /\
  calls (trace (Room.cleanScene retainPpt w)) =
    [room_cleanCurrentScene retainPpt] /\
  calls (trace (RoomBridge.cleanScene None w)) <>
    [room_cleanCurrentScene (Some (RoomBridge.cleanScene_retain None))].
Proof.
  unfold RoomBridge.cleanScene, Room.cleanScene. run.
  repeat split;
    try (destruct (do_room_cleanCurrentScene _ w) as [[[]|e] w'];
         reflexivity).
  destruct (do_room_cleanCurrentScene None w) as [[[]|e] w']; discriminate.
Qed.

(** *** Exceptions of the collaborators *)

Lemma setScenePath_outcome path w :
  let o := RoomBridge.setScenePath path w in
  match fst (scene_path_call path w) with
  | Normal _ => responses (trace o) = [Stringified (JObject [])]
  | Throw e => responses (trace o) = [Stringified (error_payload e)]
  end /\ result o = Normal tt.
Proof.
  unfold RoomBridge.setScenePath, scene_path_call. run.
  destruct (window_manager w);
    [destruct (do_manager_setMainViewScenePath path w) as [[[]|e] w']
    |destruct (do_room_setScenePath path w) as [[[]|e] w']];
    simpl; split; reflexivity.
Qed.

Lemma setSceneIndex_outcome i w :
  let o := RoomBridge.setSceneIndex i w in
  match fst (scene_index_call i w) with
  | Normal _ => responses (trace o) = [Stringified (JObject [])]
  | Throw e => responses (trace o) = [Stringified (error_payload e)]
  end /\ result o = Normal tt.
Proof.
  unfold RoomBridge.setSceneIndex, scene_index_call. run.
  destruct (window_manager w);
    [destruct (do_manager_setMainViewSceneIndex i w) as [[[]|e] w']
    |destruct (do_room_setSceneIndex i w) as [[[]|e] w']];
    simpl; split; reflexivity.
Qed.

(** C7, as amended. setScenePath and setSceneIndex catch what the
    collaborator call throws and hand the response callback
    JSON.stringify({ __error: { message, jsStack } }), and setWritable does
    so when the room's promise rejects with an Error; none of the three
    lets the exception out. redo and undo have no handler: what room.redo
    or room.undo throws leaves the bridge method and the callback is not
    invoked. *)
Theorem bridge_error_payload
        (path : JsString) (i : Z) (writable : bool) (e : JsError) (w : W) :
  (fst (scene_path_call path w) = Throw e ->
   responses (trace (RoomBridge.setScenePath path w)) =
     [Stringified (error_payload e)] /\
   result (RoomBridge.setScenePath path w) = Normal tt) /\
  (fst (scene_index_call i w) = Throw e ->
   responses (trace (RoomBridge.setSceneIndex i w)) =
     [Stringified (error_payload e)] /\
   result (RoomBridge.setSceneIndex i w) = Normal tt) /\
  (fst (do_room_setWritable writable w) = Normal (Rejected (Some e)) ->
   responses (trace (RoomBridge.setWritable writable w)) =
     [Stringified (error_payload e)] /\
   result (RoomBridge.setWritable writable w) = Normal tt) /\
  (fst (do_room_redo w) = Throw e ->
   responses (trace (RoomBridge.redo w)) = [] /\
   result (RoomBridge.redo w) = Throw e) /\
  (fst (do_room_undo w) = Throw e ->
   responses (trace (RoomBridge.undo w)) = [] /\
   result (RoomBridge.undo w) = Throw e).
Proof.
  repeat split.
  - pose proof (setScenePath_outcome path w) as [P _]. now rewrite H in P.
  - apply setScenePath_outcome.
  - pose proof (setSceneIndex_outcome i w) as [P _]. now rewrite H in P.
  - apply setSceneIndex_outcome.
  - unfold RoomBridge.setWritable. run.
    destruct (do_room_setWritable writable w) as [c w']. simpl in *.
    now subst c.
  - unfold RoomBridge.setWritable. run.
    destruct (do_room_setWritable writable w) as [c w']. simpl in *.
    now subst c.
  - unfold RoomBridge.redo. run.
    destruct (do_room_redo w) as [c w']. simpl in *. now subst c.
  - unfold RoomBridge.redo. run.
    destruct (do_room_redo w) as [c w']. simpl in *. now subst c.
  - unfold RoomBridge.undo. run.
    destruct (do_room_undo w) as [c w']. simpl in *. now subst c.
  - unfold RoomBridge.undo. run.
    destruct (do_room_undo w) as [c w']. simpl in *. now subst c.
Qed.

End Methods.

(* ================================================================== *)
(** * The bridge on the scripted collaborators *)

Lemma addApp_other_kind_forwarded_witness :
  let w := Scripted.calm true in
  let o := Scripted.deck_options in
  Js.lit "MediaPlayer" <> Js.lit "Slide" /\
  window_manager w = true /\
  calls (trace (RoomBridge.addApp (fun x => x) (Js.lit "MediaPlayer") o o w)) =
    [manager_addApp (host_request (Js.lit "MediaPlayer") o o)].
Proof.
  intros w o.
  assert (Hk : Js.lit "MediaPlayer" <> Js.lit "Slide") by discriminate.
  split; [exact Hk|]. split; [reflexivity|].
  exact (proj1 (@addApp_other_kind_forwarded _ _ Scripted.sdk (fun x => x)
                  (Js.lit "MediaPlayer") o o w Hk eq_refl)).
Defined.

Lemma addApp_without_manager_silent_witness :
  let w := Scripted.calm false in
  let o := Scripted.deck_options in
  window_manager w = false /\
  RoomBridge.addApp (fun x => x) (Js.lit "Slide") o o w =
    {| trace := []; world := w; result := Normal tt |}.
Proof.
  intros w o. split; [reflexivity|].
  exact (proj1 (@addApp_without_manager_silent _ _ Scripted.sdk (fun x => x)
                  o o w eq_refl)).
Defined.

Lemma scripted_setSceneIndex_stores (w : Scripted.World) (j : Z) :
  (0 <= j < Z.of_nat (List.length (sceneState_scenes w)))%Z ->
  exists w', do_room_setSceneIndex j w = (Normal tt, w') /\
             sceneState_index w' = j.
Proof.
  intros Hj. exists (Scripted.with_index j w). simpl in *.
  unfold Scripted.setSceneIndex.
  assert (E : ((0 <=? j) && (j <? Z.of_nat (List.length (Scripted.scene_list w))))%Z
              = true).
  { apply andb_true_iff. split; [apply Z.leb_le|apply Z.ltb_lt]; lia. }
  rewrite E. split; reflexivity.
Defined.

Lemma page_turn_single_room_witness :
  let w := Scripted.calm false in
  window_manager w = false /\
  (0 <= sceneState_index w < Z.of_nat (List.length (sceneState_scenes w)))%Z /\
  responses (trace (RoomBridge.nextPage w)) = [Boolean true] /\
  sceneState_index (world (RoomBridge.nextPage w)) = 2%Z /\
  responses (trace (RoomBridge.prevPage w)) = [Boolean true] /\
  sceneState_index (world (RoomBridge.prevPage w)) = 0%Z.
Proof.
  intros w.
  assert (Hi : (0 <= sceneState_index w
                < Z.of_nat (List.length (sceneState_scenes w)))%Z)
    by (simpl; lia).
  split; [reflexivity|]. split; [exact Hi|].
  destruct (@page_turn_single_room _ _ Scripted.sdk w eq_refl Hi
              (scripted_setSceneIndex_stores w))
    as (Hnext & _ & Hprev & _).
  destruct Hnext as (_ & Rn & In); [simpl; lia|].
  destruct Hprev as (_ & Rp & Ip); [simpl; lia|].
  repeat split; assumption.
Defined.

Lemma bridge_error_payload_witness :
  let w := Scripted.failing true in
  (responses (trace (RoomBridge.setScenePath (Js.lit "/nowhere") w)) =
     [Stringified (error_payload (Scripted.error "scene path is illegal"))] /\
   result (RoomBridge.setScenePath (Js.lit "/nowhere") w) = Normal tt) /\
  (responses (trace (RoomBridge.setSceneIndex 7 w)) =
     [Stringified (error_payload (Scripted.error "index out of range"))] /\
   result (RoomBridge.setSceneIndex 7 w) = Normal tt) /\
  (responses (trace (RoomBridge.setWritable true w)) =
     [Stringified (error_payload (Scripted.error "room is not writable"))] /\
   result (RoomBridge.setWritable true w) = Normal tt) /\
  (responses (trace (RoomBridge.undo w)) = [] /\
   result (RoomBridge.undo w) = Throw (Scripted.error "room is not writable")).
Proof.
  intros w.
  pose (T := fun e => @bridge_error_payload _ _ Scripted.sdk
                        (Js.lit "/nowhere") 7%Z true e w).
  split; [|split; [|split]].
  - exact (proj1 (T (Scripted.error "scene path is illegal")) eq_refl).
  - exact (proj1 (proj2 (T (Scripted.error "index out of range"))) eq_refl).
  - exact (proj1 (proj2 (proj2 (T (Scripted.error "room is not writable"))))
             eq_refl).
  - exact (proj2 (proj2 (proj2 (proj2
             (T (Scripted.error "room is not writable"))))) eq_refl).
Defined.

(** C7, as stated, fails on redo: when room.redo throws, the exception
    leaves the bridge method and the response callback gets no error
    payload. *)
Lemma redo_exception_escapes :
  let w := Scripted.failing false in
  let e := Scripted.error "room is not writable" in
  fst (do_room_redo w) = Throw e /\
  result (RoomBridge.redo w) = Throw e /\
  responses (trace (RoomBridge.redo w)) = [] /\
  ~ (forall (w' : Scripted.World) (e' : JsError),
       fst (do_room_redo w') = Throw e' ->
       responses (trace (RoomBridge.redo w')) =
         [Stringified (error_payload e')] /\
       result (RoomBridge.redo w') = Normal tt).
Proof.
  intros w e. repeat split.
  intros H. destruct (H w e eq_refl) as [R _]. discriminate R.
Qed.

(* ================================================================== *)
(** * Further properties of the classifier *)

(** ** More on the pattern *)

Section Shifts.

Variable k : RegExp.CharClass.

(** The quantifiers use the position only through their continuation. *)
Lemma plus_lazy_shift : forall inp pos pos' c c',
  (forall n rest, c (pos + n) rest = c' (pos' + n) rest) ->
  RegExp.plus_lazy k pos inp c = RegExp.plus_lazy k pos' inp c'.
Proof.
  induction inp as [|ch inp IH]; intros pos pos' c c' H; simpl; auto.
  destruct (RegExp.in_class k ch); auto.
  pose proof (H 1 inp) as H1. rewrite !Nat.add_1_r in H1. rewrite H1.
  destruct (c' (S pos') inp); auto.
  apply IH. intros n rest. specialize (H (S n) rest).
  now rewrite !Nat.add_succ_r in H.
Qed.

Lemma plus_greedy_shift : forall inp pos pos' c c',
  (forall n rest, c (pos + n) rest = c' (pos' + n) rest) ->
  RegExp.plus_greedy k pos inp c = RegExp.plus_greedy k pos' inp c'.
Proof.
  induction inp as [|ch inp IH]; intros pos pos' c c' H; simpl; auto.
  destruct (RegExp.in_class k ch); auto.
  pose proof (H 1 inp) as H1. rewrite !Nat.add_1_r in H1. rewrite H1.
  rewrite (IH (S pos) (S pos') c c'); auto.
  intros n rest. specialize (H (S n) rest).
  now rewrite !Nat.add_succ_r in H.
Qed.

(** A successful [\S+?] stopped at the first run that lets its
    continuation succeed. *)
Lemma plus_lazy_first : forall inp pos c r,
  RegExp.plus_lazy k pos inp c = Some r ->
  exists taken rest,
    inp = taken ++ rest /\ taken <> [] /\
    c (pos + List.length taken) rest = Some r /\
    forall t' r', t' <> [] -> inp = t' ++ r' ->
                  List.length t' < List.length taken ->
                  c (pos + List.length t') r' = None.
Proof.
  induction inp as [|ch inp IH]; intros pos c r H; simpl in H;
    [discriminate|].
  destruct (RegExp.in_class k ch) eqn:E; [|discriminate].
  destruct (c (S pos) inp) eqn:Ec.
  - inversion H; subst. exists [ch], inp. simpl. rewrite Nat.add_1_r.
    repeat split; auto; [discriminate|].
    intros [|a t'] r' Hne _ Hlt; [contradiction|simpl in Hlt; lia].
  - apply IH in H. destruct H as (t & rest & -> & Hne & Hc & Hmin).
    exists (ch :: t), rest. simpl. rewrite Nat.add_succ_r.
    repeat split; auto; [discriminate|].
    intros [|a t'] r' Hne' Heq Hlt; [contradiction|].
    simpl in Heq. inversion Heq; subst a. simpl.
    destruct t' as [|b t'].
    + simpl in *. subst r'. now rewrite Nat.add_1_r.
    + rewrite Nat.add_succ_r. apply Hmin; auto; [discriminate|].
      simpl in *. lia.
Qed.

End Shifts.

Lemma pptSrcRE_tail_shift pos pos' inp g :
  RegExp.match_seq pptSrcRE_tail pos inp g accept =
  RegExp.match_seq pptSrcRE_tail pos' inp g accept.
Proof.
  unfold pptSrcRE_tail, accept. cbn [RegExp.match_seq RegExp.match_node].
  destruct (Js.strip (Js.lit "://") inp) as [r1|]; auto.
  apply plus_lazy_shift. intros n r2.
  destruct (Js.strip (Js.lit "dynamicConvert") r2) as [r3|]; auto.
  destruct (Js.strip (Js.lit "/") r3) as [r4|]; auto.
  apply plus_greedy_shift. intros m r5.
  destruct (Js.strip (Js.lit "/") r5) as [r6|]; auto.
  do 2 f_equal.
  - do 2 f_equal. lia.
  - do 3 f_equal. lia.
Qed.

Lemma pptSrcRE_tail_first pos g mid tid rest r :
  mid <> [] -> forallb (RegExp.in_class RegExp.NonSpace) mid = true ->
  tid <> [] -> forallb (RegExp.in_class RegExp.WordChar) tid = true ->
  RegExp.match_seq pptSrcRE_tail pos
    (Js.lit "://" ++ mid ++ Js.lit "dynamicConvert"
       ++ Js.lit "/" ++ tid ++ Js.lit "/" ++ rest) g accept = Some r ->
  exists mid' tid',
    r = ("taskId"%string, tid')
          :: ("prefix"%string,
              Js.lit "://" ++ mid' ++ Js.lit "dynamicConvert") :: g /\
    List.length mid' <= List.length mid.
Proof.
  intros Hmid Amid Htid Atid.
  remember (mid ++ Js.lit "dynamicConvert"
              ++ Js.lit "/" ++ tid ++ Js.lit "/" ++ rest) as inp1 eqn:Einp.
  unfold pptSrcRE_tail, accept. cbn [RegExp.match_seq RegExp.match_node].
  rewrite strip_prefix. intros H.
  apply plus_lazy_first in H.
  destruct H as (mid' & r2 & E & Hmid' & H & Hmin).
  assert (Hle : List.length mid' <= List.length mid).
  { destruct (Nat.le_gt_cases (List.length mid') (List.length mid)) as [L|L];
      auto.
    exfalso. specialize (Hmin mid _ Hmid Einp L). revert Hmin.
    rewrite strip_prefix, strip_prefix.
    apply plus_greedy_some; auto.
    rewrite strip_prefix. discriminate. }
  rewrite E in H.
  destruct (Js.strip (Js.lit "dynamicConvert") r2) as [r3|] eqn:E3;
    [|discriminate].
  apply strip_app in E3.
  destruct (Js.strip (Js.lit "/") r3) as [r4|] eqn:E4; [|discriminate].
  apply strip_app in E4.
  apply plus_greedy_inv in H. destruct H as (tid' & r5 & -> & Htid' & Atid' & H).
  destruct (Js.strip (Js.lit "/") r5) as [r6|] eqn:E6; [|discriminate].
  apply strip_app in E6. inversion H; clear H. subst r2 r3 r5.
  exists mid', tid'. split; [|exact Hle].
  f_equal; [|f_equal]; f_equal.
  - apply firstn_exact. lia.
  - apply (@firstn_exact3 N (Js.lit "://") mid' (Js.lit "dynamicConvert")).
    simpl. lia.
Qed.

(** The scheme tag of a matched string is fixed by its fourth character. *)
Lemma pptSrcRE_plain t :
  RegExp.match_seq pptSrcRE 0 (Js.lit "ppt" ++ Js.lit "://" ++ t) [] accept =
  RegExp.match_seq pptSrcRE_tail 0 (Js.lit "://" ++ t) [] accept.
Proof.
  rewrite pptSrcRE_unfold, strip_prefix. simpl Js.strip at 1.
  apply pptSrcRE_tail_shift.
Qed.

Lemma pptSrcRE_x t :
  RegExp.match_seq pptSrcRE 0 (Js.lit "pptx" ++ Js.lit "://" ++ t) [] accept =
  RegExp.match_seq pptSrcRE_tail 0 (Js.lit "://" ++ t) [] accept.
Proof.
  change (Js.lit "pptx" ++ Js.lit "://" ++ t)
    with (Js.lit "ppt" ++ Js.lit "x" ++ Js.lit "://" ++ t).
  rewrite pptSrcRE_unfold, strip_prefix, strip_prefix.
  rewrite (pptSrcRE_tail_shift 4 0).
  destruct (RegExp.match_seq pptSrcRE_tail 0 (Js.lit "://" ++ t) [] accept);
    reflexivity.
Qed.

(** X1. The pattern of makeSlideParams matches a string exactly when it
    reads ppt[x]://<mid>dynamicConvert/<tid>/<rest> with <mid> a non-empty
    run of non-space characters and <tid> a non-empty run of word
    characters. *)
Theorem pptSrcRE_language (s : JsString) :
  RegExp.exec pptSrcRE s <> None <->
  exists x mid tid rest, slide_source_shape s x mid tid rest.
Proof.
  split.
  - intros H. destruct (RegExp.exec pptSrcRE s) as [m|] eqn:E;
      [|contradiction].
    apply pptSrcRE_exec_inv in E.
    destruct E as (x & mid & tid & rest & Hs & _). now exists x, mid, tid, rest.
  - intros (x & mid & tid & rest & Hs). exact (pptSrcRE_exec_some Hs).
Qed.

Lemma slide_source_groups d g :
  Js.startsWith (src d) (Js.lit "ppt") = true ->
  RegExp.match_seq pptSrcRE 0 (src d) [] accept = Some g ->
  slide_source (Some d) =
  match RegExp.group "taskId" g, RegExp.group "prefix" g with
  | Some t, Some pre => Some (t, Js.lit "https" ++ pre)
  | _, _ => None
  end.
Proof.
  intros Hp Hg. unfold slide_source. rewrite Hp. simpl negb. cbv iota.
  rewrite pptSrcRE_exec, Hg. reflexivity.
Qed.

(** X2. The lazy quantifier stops at the first "dynamicConvert/<word>/":
    however the source can be read in the shape of the pattern, the url
    that the loop body returns is "https://" ++ mid' ++ "dynamicConvert"
    with mid' no longer than the <mid> of that reading. *)
Theorem slide_source_first_occurrence
        (d : PptDescription) (t u x mid tid rest : JsString) :
  slide_source (Some d) = Some (t, u) ->
  slide_source_shape (src d) x mid tid rest ->
  exists mid',
    u = Js.lit "https" ++ Js.lit "://" ++ mid' ++ Js.lit "dynamicConvert" /\
    List.length mid' <= List.length mid.
Proof.
  intros H (Hs & Hx & Hmid & Amid & Htid & Atid).
  assert (Hp : Js.startsWith (src d) (Js.lit "ppt") = true).
  { rewrite Hs. unfold Js.startsWith. now rewrite strip_prefix. }
  assert (Hg : exists g,
    RegExp.match_seq pptSrcRE 0 (src d) [] accept = Some g /\
    RegExp.match_seq pptSrcRE_tail 0
      (Js.lit "://" ++ mid ++ Js.lit "dynamicConvert"
         ++ Js.lit "/" ++ tid ++ Js.lit "/" ++ rest) [] accept = Some g).
  { rewrite Hs. destruct Hx as [-> | ->].
    - change (Js.lit "ppt" ++ [] ++ ?a) with (Js.lit "ppt" ++ a).
      rewrite pptSrcRE_plain.
      destruct (RegExp.match_seq pptSrcRE_tail 0 _ [] accept) as [g|] eqn:E.
      + now exists g.
      + exfalso. revert E. now apply pptSrcRE_tail_some.
    - change (Js.lit "ppt" ++ Js.lit "x" ++ ?a)
        with (Js.lit "pptx" ++ a).
      rewrite pptSrcRE_x.
      destruct (RegExp.match_seq pptSrcRE_tail 0 _ [] accept) as [g|] eqn:E.
      + now exists g.
      + exfalso. revert E. now apply pptSrcRE_tail_some. }
  destruct Hg as (g & Hg & Ht).
  rewrite (@slide_source_groups d g Hp Hg) in H.
  apply pptSrcRE_tail_first in Ht; auto.
  destruct Ht as (mid' & tid' & -> & Hle).
  simpl in H. inversion H; subst. now exists mid'.
Qed.

(** X3. The scheme tag does not matter: the sources ppt://t and pptx://t
    give the same result of the loop body, a match with the same task
    identifier and url or no match, for every t. *)
Theorem scheme_tag_irrelevant
        (t : JsString) (w h w' h' : Z) (p p' : option JsString) :
  slide_source
    (Some {| src := Js.lit "ppt" ++ Js.lit "://" ++ t;
             width := w; height := h; previewURL := p |}) =
  slide_source
    (Some {| src := Js.lit "pptx" ++ Js.lit "://" ++ t;
             width := w'; height := h'; previewURL := p' |}).
Proof.
  unfold slide_source. cbn [src].
  assert (H1 : Js.startsWith (Js.lit "ppt" ++ Js.lit "://" ++ t) (Js.lit "ppt")
               = true).
  { unfold Js.startsWith. now rewrite strip_prefix. }
  assert (H2 : Js.startsWith (Js.lit "pptx" ++ Js.lit "://" ++ t) (Js.lit "ppt")
               = true).
  { change (Js.lit "pptx" ++ Js.lit "://" ++ t)
      with (Js.lit "ppt" ++ Js.lit "x" ++ Js.lit "://" ++ t).
    unfold Js.startsWith. now rewrite strip_prefix. }
  rewrite H1, H2. simpl negb. cbv iota.
  now rewrite !pptSrcRE_exec, pptSrcRE_plain, pptSrcRE_x.
Qed.

(** ** More on the loops *)

Lemma first_match_split (scs : list SceneDefinition) :
  (forall s, In s scs -> slide_source (ppt s) = None) \/
  exists pre s post t u,
    scs = pre ++ s :: post /\
    (forall x, In x pre -> slide_source (ppt x) = None) /\
    slide_source (ppt s) = Some (t, u).
Proof.
  induction scs as [|a scs IH].
  - left. intros s [].
  - destruct (slide_source (ppt a)) as [[t u]|] eqn:E.
    + right. exists [], a, scs, t, u. repeat split; auto. intros x [].
    + destruct IH as [IH | (pre & s & post & t & u & -> & Hpre & Hs)].
      * left. intros s [<-|Hs]; auto.
      * right. exists (a :: pre), s, post, t, u. repeat split; auto.
        intros x [<-|Hx]; auto.
Qed.

Lemma makeSlideParams_cases (scs : list SceneDefinition) :
  ((forall s, In s scs -> ~ matching s) /\
   RoomBridge.makeSlideParams scs =
     {| scenesWithoutPPT := map strip_scene scs; taskId := []; url := [] |} /\
   Room.makeSlideParams scs =
     {| scenesWithoutPPT := map strip_scene scs; taskId := []; url := [] |}) \/
  (exists pre s post t u,
     scs = pre ++ s :: post /\
     (forall x, In x pre -> ~ matching x) /\
     slide_source (ppt s) = Some (t, u) /\
     RoomBridge.makeSlideParams scs =
       {| scenesWithoutPPT := map strip_scene scs; taskId := t; url := u |} /\
     Room.makeSlideParams scs =
       {| scenesWithoutPPT := map strip_scene (pre ++ [s]);
          taskId := t; url := u |}).
Proof.
  destruct (first_match_split scs)
    as [H | (pre & s & post & t & u & -> & Hpre & Hs)].
  - left. split; [intros s Hs; apply slide_source_none; auto|].
    unfold RoomBridge.makeSlideParams, Room.makeSlideParams.
    rewrite (@RoomBridge_scan_no_match scs [] [] H).
    rewrite (@Room_scan_no_match scs [] [] [] H). split; reflexivity.
  - right. exists pre, s, post, t, u.
    split; [reflexivity|].
    split; [intros x Hx; apply slide_source_none; auto|].
    split; [exact Hs|].
    unfold RoomBridge.makeSlideParams, Room.makeSlideParams.
    rewrite (@RoomBridge_scan_first_match pre s post t u [] [] Hpre Hs).
    rewrite (@Room_scan_first_match pre s post t u [] [] [] Hpre Hs).
    split; reflexivity.
Qed.

Lemma slide_source_nonempty p t u :
  slide_source p = Some (t, u) -> t <> [] /\ u <> [].
Proof.
  intros H. apply slide_source_inv in H.
  destruct H as (d & x & mid & rest & _ & (_ & _ & _ & _ & Ht & _) & ->).
  split; [exact Ht|discriminate].
Qed.

Lemma slide_source_matching s t u :
  slide_source (ppt s) = Some (t, u) -> matching s.
Proof.
  intros H. apply slide_source_inv in H.
  destruct H as (d & x & mid & rest & Hd & Hs & _).
  now exists d, x, mid, t, rest.
Qed.

(** X4. The two makeSlideParams return the same task identifier and the
    same url on every scene list, and the stripped list of
    src/src/bridge/Room.ts is a prefix of the stripped list of
    src/unnamed/part_000, never longer than the input. *)
Theorem bridges_agree_on_task_and_url (scs : list SceneDefinition) :
  taskId (Room.makeSlideParams scs) = taskId (RoomBridge.makeSlideParams scs) /\
  url (Room.makeSlideParams scs) = url (RoomBridge.makeSlideParams scs) /\
  exists k,
    k <= List.length scs /\
    scenesWithoutPPT (Room.makeSlideParams scs) =
      firstn k (scenesWithoutPPT (RoomBridge.makeSlideParams scs)).
Proof.
  destruct (makeSlideParams_cases scs)
    as [(_ & -> & ->) | (pre & s & post & t & u & E & _ & _ & -> & ->)];
    simpl; repeat split.
  - exists (List.length scs). split; [lia|].
    now rewrite <- (length_map strip_scene scs), firstn_all.
  - exists (List.length (map strip_scene (pre ++ [s]))). subst scs. split.
    + rewrite length_map, !length_app. simpl. lia.
    + change (pre ++ s :: post) with (pre ++ [s] ++ post).
      rewrite app_assoc, (map_app strip_scene (pre ++ [s]) post).
      symmetry. now apply firstn_exact.
Qed.

Lemma makeSlideParams_matched (scs : list SceneDefinition) :
  let r := RoomBridge.makeSlideParams scs in
  (taskId r <> [] /\ url r <> [] /\ Exists matching scs) \/
  (taskId r = [] /\ url r = [] /\ ~ Exists matching scs).
Proof.
  intros r. subst r.
  destruct (makeSlideParams_cases scs)
    as [(Hno & -> & _) | (pre & s & post & t & u & E & _ & Hs & -> & _)];
    simpl.
  - right. repeat split. intros Hex. apply Exists_exists in Hex.
    destruct Hex as (s & Hin & Hm). exact (Hno s Hin Hm).
  - left. destruct (@slide_source_nonempty _ _ _ Hs) as [Ht Hu].
    repeat split; auto. apply Exists_exists. exists s. split.
    + subst scs. apply in_elt.
    + exact (@slide_source_matching _ _ _ Hs).
Qed.

(** X5. The task identifier is non-empty exactly when the url is, and
    exactly when some scene of the list matches: the test
    [taskId && url] of addSlideApp holds if and only if a scene matches. *)
Theorem slide_iff_some_scene_matches (scs : list SceneDefinition) :
  let r := RoomBridge.makeSlideParams scs in
  (taskId r <> [] <-> Exists matching scs) /\
  (url r <> [] <-> Exists matching scs) /\
  (Js.truthy (taskId r) && Js.truthy (url r) = true <-> Exists matching scs).
Proof.
  intros r. subst r. rewrite both_truthy.
  destruct (makeSlideParams_matched scs)
    as [(Ht & Hu & Hm) | (Ht & Hu & Hm)]; rewrite ?Ht, ?Hu;
    repeat split; intros; auto; try contradiction; try tauto.
Qed.

(** X6. On every scene list the returned task identifier consists of word
    characters only, the returned url contains no white space, and the url
    is either empty or "https://" ++ mid ++ "dynamicConvert" with a
    non-empty mid. *)
Theorem classifier_output_well_formed (scs : list SceneDefinition) :
  let r := RoomBridge.makeSlideParams scs in
  forallb (RegExp.in_class RegExp.WordChar) (taskId r) = true /\
  forallb (RegExp.in_class RegExp.NonSpace) (url r) = true /\
  (url r = [] \/
   exists mid,
     mid <> [] /\
     url r = Js.lit "https://" ++ mid ++ Js.lit "dynamicConvert").
Proof.
  intros r. subst r.
  destruct (makeSlideParams_cases scs)
    as [(_ & -> & _) | (pre & s & post & t & u & _ & _ & Hs & -> & _)];
    simpl.
  - repeat split. now left.
  - apply slide_source_inv in Hs.
    destruct Hs as (d & x & mid & rest & _ & (_ & _ & Hmid & Amid & _ & At) & ->).
    split; [exact At|]. split.
    + rewrite !forallb_app, Amid. reflexivity.
    + right. exists mid. split; [exact Hmid|reflexivity].
Qed.

Lemma stripped_never_match (l : list SceneDefinition) :
  forall s, In s (map strip_scene l) -> slide_source (ppt s) = None.
Proof.
  intros s Hs. apply in_map_iff in Hs. destruct Hs as (v & <- & _).
  reflexivity.
Qed.

Lemma strip_scene_idempotent (l : list SceneDefinition) :
  map strip_scene (map strip_scene l) = map strip_scene l.
Proof.
  rewrite map_map. apply map_ext. reflexivity.
Qed.

(** X7. Classifying the stripped list again finds no slide source and
    returns the same list: makeSlideParams maps its own scenesWithoutPPT
    to that list with an empty task identifier and an empty url, in both
    bridges. *)
Theorem classifier_idempotent_on_stripped (scs : list SceneDefinition) :
  let out := scenesWithoutPPT (RoomBridge.makeSlideParams scs) in
  let out' := scenesWithoutPPT (Room.makeSlideParams scs) in
  RoomBridge.makeSlideParams out =
    {| scenesWithoutPPT := out; taskId := []; url := [] |} /\
  Room.makeSlideParams out' =
    {| scenesWithoutPPT := out'; taskId := []; url := [] |}.
Proof.
  intros out out'.
  assert (Ho : exists l, out = map strip_scene l).
  { exists scs. apply RoomBridge_stripped. }
  assert (Ho' : exists l, out' = map strip_scene l).
  { subst out'. destruct (makeSlideParams_cases scs)
      as [(_ & _ & ->) | (pre & s & post & t & u & _ & _ & _ & _ & ->)];
      simpl; eauto. }
  destruct Ho as (l & ->). destruct Ho' as (l' & ->).
  unfold RoomBridge.makeSlideParams, Room.makeSlideParams.
  rewrite (@RoomBridge_scan_no_match _ [] [] (stripped_never_match l)).
  rewrite (@Room_scan_no_match _ [] [] [] (stripped_never_match l')).
  simpl. now rewrite !strip_scene_idempotent.
Qed.

Lemma slide_source_some_matching s :
  slide_source (ppt s) <> None -> matching s.
Proof.
  intros H. destruct (slide_source (ppt s)) as [[t u]|] eqn:E;
    [|contradiction].
  exact (@slide_source_matching _ _ _ E).
Qed.

(** X8. When some scene matches, the list splits at its first matching
    scene: no scene before it matches, the task identifier and the url are
    those of that scene classified alone, and the stripped list of Room.ts
    ends with that scene. *)
Theorem first_match_decides (scs : list SceneDefinition) :
  Exists matching scs ->
  exists pre s post,
    scs = pre ++ s :: post /\
    (forall x, In x pre -> ~ matching x) /\
    matching s /\
    taskId (RoomBridge.makeSlideParams scs) =
      taskId (RoomBridge.makeSlideParams [s]) /\
    url (RoomBridge.makeSlideParams scs) =
      url (RoomBridge.makeSlideParams [s]) /\
    scenesWithoutPPT (Room.makeSlideParams scs) =
      map strip_scene (pre ++ [s]).
Proof.
  intros Hex.
  destruct (makeSlideParams_cases scs)
    as [(Hno & _) | (pre & s & post & t & u & E & Hpre & Hs & -> & ->)].
  - exfalso. apply Exists_exists in Hex. destruct Hex as (s & Hin & Hm).
    exact (Hno s Hin Hm).
  - exists pre, s, post. split; [exact E|]. split; [exact Hpre|].
    split; [exact (@slide_source_matching _ _ _ Hs)|].
    unfold RoomBridge.makeSlideParams. simpl. rewrite Hs. repeat split.
Qed.

Lemma first_match_decides_witness :
  Exists matching Scripted.late_deck /\
  exists pre s post,
    Scripted.late_deck = pre ++ s :: post /\
    (forall x, In x pre -> ~ matching x) /\
    matching s /\
    taskId (RoomBridge.makeSlideParams Scripted.late_deck) =
      taskId (RoomBridge.makeSlideParams [s]) /\
    url (RoomBridge.makeSlideParams Scripted.late_deck) =
      url (RoomBridge.makeSlideParams [s]) /\
    scenesWithoutPPT (Room.makeSlideParams Scripted.late_deck) =
      map strip_scene (pre ++ [s]).
Proof.
  assert (H : Exists matching Scripted.late_deck).
  { apply Exists_cons_tl, Exists_cons_hd.
    apply slide_source_some_matching. vm_compute. discriminate. }
  split; [exact H|]. exact (first_match_decides H).
Defined.

Lemma slide_source_first_occurrence_witness :
  let source :=
    Js.lit "ppt://a/dynamicConvert/t1/dynamicConvert/t2/3.slide" in
  exists mid',
    Js.lit "https://a/dynamicConvert" =
      Js.lit "https" ++ Js.lit "://" ++ mid' ++ Js.lit "dynamicConvert" /\
    List.length mid' <= List.length (Js.lit "a/dynamicConvert/t1/").
Proof.
  intros source.
  refine (@slide_source_first_occurrence (descriptor source)
            (Js.lit "t1") (Js.lit "https://a/dynamicConvert")
            [] (Js.lit "a/dynamicConvert/t1/") (Js.lit "t2")
            (Js.lit "3.slide") eq_refl _).
  unfold slide_source_shape. simpl.
  repeat split; try discriminate. now left.
Defined.

Lemma in_removelast_in (A : Type) (l : list A) (x : A) :
  In x (removelast l) -> In x l.
Proof.
  induction l as [|a l IH]; simpl; auto.
  destruct l as [|b l]; [intros []|].
  intros [<-|H]; [now left|right; now apply IH].
Qed.

(** X20. The stripped list of src/src/bridge/Room.ts holds one entry per
    input scene exactly when no scene other than the last one matches the
    pattern. *)
Theorem Room_stripped_complete_iff (scs : list SceneDefinition) :
  scenesWithoutPPT (Room.makeSlideParams scs) = map strip_scene scs <->
  (forall s, In s (removelast scs) -> ~ matching s).
Proof.
  destruct (makeSlideParams_cases scs)
    as [(Hno & _ & ->) | (pre & s & post & t & u & -> & Hpre & Hs & _ & ->)];
    simpl.
  - split; [|reflexivity]. intros _ s Hin. apply Hno.
    now apply in_removelast_in.
  - split.
    + intros E. apply (f_equal (@List.length _)) in E.
      rewrite !length_map, !length_app in E. simpl in E.
      destruct post as [|p post]; [|simpl in E; lia].
      rewrite removelast_last. exact Hpre.
    + intros H. destruct post as [|p post]; [reflexivity|].
      exfalso. apply (H s); [|exact (@slide_source_matching _ _ _ Hs)].
      rewrite removelast_app by discriminate.
      apply in_or_app. right. now left.
Qed.

(* ================================================================== *)
(** * Further properties of the bridge methods *)

Ltac evaluate :=
  cbv beta iota zeta delta
    [bind read ret throw try_catch call then_ catch_ responseCallback
     logger console_log emit trace world result fst snd app
     calls responses unlogged flat_map filter].

Ltac collaborate :=
  repeat match goal with
  | |- context [window_manager ?w] => destruct (window_manager w); evaluate
  | |- context [(?a <? ?b)%Z] => destruct (a <? b)%Z; evaluate
  | |- context [(?a >=? ?b)%Z] => destruct (a >=? b)%Z; evaluate
  | |- context [Js.eqb ?a ?b] => destruct (Js.eqb a b); evaluate
  | |- context [Js.truthy ?a && Js.truthy ?b] =>
      destruct (Js.truthy a && Js.truthy b); evaluate
  | |- context [do_room_redo ?w] =>
      destruct (do_room_redo w) as [[?|?] ?]; evaluate
  | |- context [do_room_undo ?w] =>
      destruct (do_room_undo w) as [[?|?] ?]; evaluate
  | |- context [do_room_setScenePath ?p ?w] =>
      destruct (do_room_setScenePath p w) as [[[]|?] ?]; evaluate
  | |- context [do_manager_setMainViewScenePath ?p ?w] =>
      destruct (do_manager_setMainViewScenePath p w) as [[[]|?] ?]; evaluate
  | |- context [do_room_setSceneIndex ?i ?w] =>
      destruct (do_room_setSceneIndex i w) as [[[]|?] ?]; evaluate
  | |- context [do_manager_setMainViewSceneIndex ?i ?w] =>
      destruct (do_manager_setMainViewSceneIndex i w) as [[[]|?] ?]; evaluate
  | |- context [do_room_setWritable ?b ?w] =>
      destruct (do_room_setWritable b w) as [[[[]|[?|]|]|?] ?]; evaluate
  | |- context [do_manager_nextPage ?w] =>
      destruct (do_manager_nextPage w) as [[[?|?|]|?] ?]; evaluate
  | |- context [do_manager_prevPage ?w] =>
      destruct (do_manager_prevPage w) as [[[?|?|]|?] ?]; evaluate
  | |- context [do_room_cleanCurrentScene ?r ?w] =>
      destruct (do_room_cleanCurrentScene r w) as [[[]|?] ?]; evaluate
  | |- context [do_manager_addApp ?p ?w] =>
      destruct (do_manager_addApp p w) as [[[?|?|]|?] ?]; evaluate
  end.

Section Outcomes.

Context {Any W : Type} {sdk : Sdk Any W}.
Variable as_opts : Any -> AddAppOptions.

(** X9. No method of RoomAsyncBridge modelled here invokes the response
    callback more than once, whatever the collaborators do; cleanScene
    never invokes it. *)
Theorem callback_at_most_once
        (path kind : JsString) (i : Z) (writable : bool)
        (retainPpt : option bool) (options attributes : Any) (w : W) :
  let replies (m : M Any W unit) := List.length (responses (trace (m w))) in
  replies RoomBridge.redo <= 1 /\
  replies RoomBridge.undo <= 1 /\
  replies (RoomBridge.setScenePath path) <= 1 /\
  replies (RoomBridge.setSceneIndex i) <= 1 /\
  replies (RoomBridge.setWritable writable) <= 1 /\
  replies RoomBridge.nextPage <= 1 /\
  replies RoomBridge.prevPage <= 1 /\
  replies (RoomBridge.cleanScene retainPpt) = 0 /\
  replies (RoomBridge.addApp as_opts kind options attributes) <= 1.
Proof.
  intros replies. subst replies. cbv beta.
  unfold RoomBridge.redo, RoomBridge.undo, RoomBridge.setScenePath,
    RoomBridge.setSceneIndex, RoomBridge.setWritable, RoomBridge.nextPage,
    RoomBridge.prevPage, RoomBridge.cleanScene, RoomBridge.addApp,
    RoomBridge.addSlideApp, RoomBridge.manager_bang_addApp.
  repeat split; evaluate; collaborate; cbn [List.length]; lia.
Qed.

(** X10. setScenePath and setSceneIndex always complete exactly once and
    never throw: they make one collaborator call, on the window manager
    when there is one and on the room otherwise, and invoke the callback
    once, with the empty object or with the error payload. *)
Theorem scene_setters_complete_once (path : JsString) (i : Z) (w : W) :
  let p := RoomBridge.setScenePath path w in
  let q := RoomBridge.setSceneIndex i w in
  List.length (responses (trace p)) = 1 /\
  result p = Normal tt /\
  calls (trace p) =
    [if window_manager w then manager_setMainViewScenePath path
     else room_setScenePath path] /\
  world p = snd (scene_path_call path w) /\
  List.length (responses (trace q)) = 1 /\
  result q = Normal tt /\
  calls (trace q) =
    [if window_manager w then manager_setMainViewSceneIndex i
     else room_setSceneIndex i] /\
  world q = snd (scene_index_call i w).
Proof.
  unfold RoomBridge.setScenePath, RoomBridge.setSceneIndex,
    scene_path_call, scene_index_call.
  evaluate. repeat split; collaborate; reflexivity.
Qed.

(** X11. With a window manager, addApp makes the single call
    window.manager.addApp(request) and hands the callback the application
    identifier with which the returned promise is fulfilled; when the call
    throws or the promise is rejected or stays pending the callback is not
    invoked. *)
Theorem addApp_reply (kind : JsString) (options attributes : Any) (w : W) :
  window_manager w = true ->
  let req := addApp_request as_opts kind options attributes in
  let o := RoomBridge.addApp as_opts kind options attributes w in
  calls (trace o) = [manager_addApp req] /\
  responses (trace o) = app_reply (fst (do_manager_addApp req w)) /\
  world o = snd (do_manager_addApp req w).
Proof.
  intros Hm req o. subst req o.
  unfold addApp_request, slide_request, docs_request, host_request,
    RoomBridge.addApp, RoomBridge.addSlideApp,
    RoomBridge.manager_bang_addApp, app_reply.
  evaluate. rewrite Hm.
  destruct (Js.eqb kind (Js.lit "Slide")); evaluate;
    [destruct (Js.truthy _ && Js.truthy _); rewrite Hm; evaluate|];
    collaborate; repeat split.
Qed.

(** X12. When window.manager.addApp throws: for kind "Slide" addSlideApp
    catches the exception and logs it to the console, addApp returns
    normally and the callback is not invoked; for every other kind the
    exception leaves addApp. *)
Theorem addApp_manager_throws
        (kind : JsString) (options attributes : Any) (w : W) (e : JsError) :
  window_manager w = true ->
  let req := addApp_request as_opts kind options attributes in
  let o := RoomBridge.addApp as_opts kind options attributes w in
  fst (do_manager_addApp req w) = Throw e ->
  (kind = Js.lit "Slide" ->
   trace o = [Called (manager_addApp req); ConsoleLog e] /\
   result o = Normal tt) /\
  (kind <> Js.lit "Slide" ->
   trace o = [Called (manager_addApp req)] /\
   result o = Throw e).
Proof.
  intros Hm req o. subst req o.
  unfold addApp_request, slide_request, docs_request, host_request,
    RoomBridge.addApp, RoomBridge.addSlideApp,
    RoomBridge.manager_bang_addApp.
  evaluate. rewrite Hm. split; intros Hk.
  - subst kind. revert H.
    change (Js.eqb (Js.lit "Slide") (Js.lit "Slide")) with true. cbv iota.
    destruct (Js.truthy _ && Js.truthy _); rewrite Hm; evaluate;
      destruct (do_manager_addApp _ w) as [c w']; evaluate;
      intros ->; split; reflexivity.
  - revert H. rewrite (js_eqb_neq Hk).
    destruct (do_manager_addApp _ w) as [c w']; evaluate.
    intros ->; split; reflexivity.
Qed.

(** X13. With a window manager, nextPage and prevPage call only
    window.manager.nextPage / prevPage, never room.setSceneIndex, and hand
    the callback the boolean with which the promise is fulfilled, or
    nothing when it is not fulfilled. *)
Theorem paging_with_manager (w : W) :
  window_manager w = true ->
  let next := RoomBridge.nextPage w in
  let prev := RoomBridge.prevPage w in
  calls (trace next) = [manager_nextPage] /\
  responses (trace next) = page_reply (fst (do_manager_nextPage w)) /\
  calls (trace prev) = [manager_prevPage] /\
  responses (trace prev) = page_reply (fst (do_manager_prevPage w)).
Proof.
  intros Hm. unfold RoomBridge.nextPage, RoomBridge.prevPage, page_reply.
  evaluate. rewrite Hm. repeat split; collaborate; reflexivity.
Qed.

(** X16. setWritable calls room.setWritable once. When the promise is
    fulfilled the callback receives { isWritable, observerId } as the room
    holds them after the call; when it is rejected with an Error, the error
    payload; when it is rejected with undefined or stays pending, nothing.
    A synchronous exception of room.setWritable leaves the method. *)
Theorem setWritable_outcomes (writable : bool) (w : W) :
  let c := do_room_setWritable writable w in
  let o := RoomBridge.setWritable writable w in
  calls (trace o) = [room_setWritable writable] /\
  world o = snd c /\
  match fst c with
  | Normal (Fulfilled _) =>
      responses (trace o) =
        [Stringified
           (JObject [("isWritable"%string, JBoolean (isWritable (snd c)));
                     ("observerId"%string, JNumber (observerId (snd c)))])] /\
      result o = Normal tt
  | Normal (Rejected (Some e)) =>
      responses (trace o) = [Stringified (error_payload e)] /\
      result o = Normal tt
  | Normal (Rejected None) | Normal Pending =>
      responses (trace o) = [] /\ result o = Normal tt
  | Throw e =>
      responses (trace o) = [] /\ result o = Throw e
  end.
Proof.
  unfold RoomBridge.setWritable. evaluate.
  destruct (do_room_setWritable writable w) as [[[[]|[e|]|]|e] w']; evaluate;
    repeat split.
Qed.

Lemma nextPage_steps (w : W) :
  window_manager w = false -> setSceneIndex_stores -> in_range w ->
  (sceneState_index w + 1
   < Z.of_nat (List.length (sceneState_scenes w)))%Z ->
  exists w',
    RoomBridge.nextPage w =
      {| trace := [Called (room_setSceneIndex (sceneState_index w + 1)%Z);
                   Responded (Boolean true)];
         world := w'; result := Normal tt |} /\
    sceneState_index w' = (sceneState_index w + 1)%Z /\
    sceneState_scenes w' = sceneState_scenes w /\
    window_manager w' = false.
Proof.
  intros Hm Hst Hr Hlt. unfold in_range in Hr.
  destruct (Hst w (sceneState_index w + 1)%Z) as (w' & E & Ei & Es & Em);
    [lia|].
  exists w'. rewrite Em, Hm. repeat split; auto.
  unfold RoomBridge.nextPage. evaluate. rewrite Hm.
  apply Z.ltb_lt in Hlt. rewrite Hlt, E. reflexivity.
Qed.

Lemma prevPage_steps (w : W) :
  window_manager w = false -> setSceneIndex_stores -> in_range w ->
  (sceneState_index w - 1 >= 0)%Z ->
  exists w',
    RoomBridge.prevPage w =
      {| trace := [Called (room_setSceneIndex (sceneState_index w - 1)%Z);
                   Responded (Boolean true)];
         world := w'; result := Normal tt |} /\
    sceneState_index w' = (sceneState_index w - 1)%Z /\
    sceneState_scenes w' = sceneState_scenes w /\
    window_manager w' = false.
Proof.
  intros Hm Hst Hr Hge. unfold in_range in Hr.
  destruct (Hst w (sceneState_index w - 1)%Z) as (w' & E & Ei & Es & Em);
    [lia|].
  exists w'. rewrite Em, Hm. repeat split; auto.
  unfold RoomBridge.prevPage. evaluate. rewrite Hm.
  assert (H' : (sceneState_index w - 1 >=? 0)%Z = true)
    by (apply Z.geb_le; lia).
  rewrite H', E. reflexivity.
Qed.

Lemma nextPage_stays (w : W) :
  window_manager w = false ->
  ~ (sceneState_index w + 1
     < Z.of_nat (List.length (sceneState_scenes w)))%Z ->
  RoomBridge.nextPage w =
    {| trace := [Responded (Boolean false)]; world := w; result := Normal tt |}.
Proof.
  intros Hm H. unfold RoomBridge.nextPage. evaluate. rewrite Hm.
  apply Z.ltb_nlt in H. now rewrite H.
Qed.

Lemma prevPage_stays (w : W) :
  window_manager w = false ->
  ~ (sceneState_index w - 1 >= 0)%Z ->
  RoomBridge.prevPage w =
    {| trace := [Responded (Boolean false)]; world := w; result := Normal tt |}.
Proof.
  intros Hm H. unfold RoomBridge.prevPage. evaluate. rewrite Hm.
  assert (H' : (sceneState_index w - 1 >=? 0)%Z = false).
  { destruct (sceneState_index w - 1 >=? 0)%Z eqn:E; auto.
    apply Z.geb_le in E. lia. }
  now rewrite H'.
Qed.

(** X14. Single-room mode, with a room whose setSceneIndex stores an
    index in range: nextPage followed by prevPage answers true twice and
    restores the scene index when there is a next scene, and so does
    prevPage followed by nextPage when there is a previous scene. *)
Theorem page_turn_round_trip (w : W) :
  window_manager w = false ->
  setSceneIndex_stores ->
  in_range w ->
  ((sceneState_index w + 1
    < Z.of_nat (List.length (sceneState_scenes w)))%Z ->
   let o := (RoomBridge.nextPage ;; RoomBridge.prevPage) w in
   responses (trace o) = [Boolean true; Boolean true] /\
   result o = Normal tt /\
   sceneState_index (world o) = sceneState_index w) /\
  ((sceneState_index w - 1 >= 0)%Z ->
   let o := (RoomBridge.prevPage ;; RoomBridge.nextPage) w in
   responses (trace o) = [Boolean true; Boolean true] /\
   result o = Normal tt /\
   sceneState_index (world o) = sceneState_index w).
Proof.
  intros Hm Hst Hr. split; intros H o; subst o; unfold bind.
  - destruct (nextPage_steps Hm Hst Hr H) as (w1 & -> & Ei & Es & Em).
    cbn [result world trace].
    assert (Hr1 : in_range w1).
    { unfold in_range in *. rewrite Ei, Es. lia. }
    destruct (@prevPage_steps w1 Em Hst Hr1) as (w2 & -> & Ei2 & _);
      [rewrite Ei; unfold in_range in Hr; lia|].
    cbn [result world trace]. repeat split. rewrite Ei2, Ei. lia.
  - destruct (prevPage_steps Hm Hst Hr H) as (w1 & -> & Ei & Es & Em).
    cbn [result world trace].
    assert (Hr1 : in_range w1).
    { unfold in_range in *. rewrite Ei, Es. lia. }
    destruct (@nextPage_steps w1 Em Hst Hr1) as (w2 & -> & Ei2 & _);
      [rewrite Ei, Es; unfold in_range in Hr; lia|].
    cbn [result world trace]. repeat split. rewrite Ei2, Ei. lia.
Qed.

(** X15. Single-room mode, with a room whose setSceneIndex stores an
    index in range: nextPage and prevPage return normally and leave the
    scene index within the scenes of the room. *)
Theorem page_turn_keeps_range (w : W) :
  window_manager w = false ->
  setSceneIndex_stores ->
  in_range w ->
  in_range (world (RoomBridge.nextPage w)) /\
  in_range (world (RoomBridge.prevPage w)) /\
  result (RoomBridge.nextPage w) = Normal tt /\
  result (RoomBridge.prevPage w) = Normal tt.
Proof.
  intros Hm Hst Hr.
  assert (N : in_range (world (RoomBridge.nextPage w)) /\
              result (RoomBridge.nextPage w) = Normal tt).
  { destruct (Z.lt_ge_cases (sceneState_index w + 1)
                (Z.of_nat (List.length (sceneState_scenes w)))) as [H|H].
    - destruct (nextPage_steps Hm Hst Hr H) as (w1 & -> & Ei & Es & _).
      split; [|reflexivity]. unfold in_range in *. simpl.
      rewrite Ei, Es. lia.
    - rewrite nextPage_stays; [split; auto | exact Hm | lia]. }
  assert (P : in_range (world (RoomBridge.prevPage w)) /\
              result (RoomBridge.prevPage w) = Normal tt).
  { destruct (Z.lt_ge_cases (sceneState_index w - 1) 0) as [H|H].
    - rewrite prevPage_stays; [split; auto | exact Hm | lia].
    - destruct (@prevPage_steps w Hm Hst Hr) as (w1 & -> & Ei & Es & _);
        [lia|].
      split; [|reflexivity]. unfold in_range in *. simpl.
      rewrite Ei, Es. lia. }
  tauto.
Qed.

(** X17. redo, undo and setWritable of src/src/bridge/Room.ts are those
    of src/unnamed/part_000; setScenePath, setSceneIndex and cleanScene
    differ from them by the logger entry alone: same collaborator calls,
    same callback invocations, same completion. *)
Theorem registerRoom_agrees
        (path : JsString) (i : Z) (writable : bool)
        (retainPpt : option bool) (w : W) :
  RegisterRoom.redo w = RoomBridge.redo w /\
  RegisterRoom.undo w = RoomBridge.undo w /\
  RegisterRoom.setWritable writable w = RoomBridge.setWritable writable w /\
  (let a := RegisterRoom.setScenePath path w in
   let b := RoomBridge.setScenePath path w in
   unlogged (trace a) = trace b /\ world a = world b /\ result a = result b) /\
  (let a := RegisterRoom.setSceneIndex i w in
   let b := RoomBridge.setSceneIndex i w in
   unlogged (trace a) = trace b /\ world a = world b /\ result a = result b) /\
  (let a := Room.cleanScene retainPpt w in
   let b := RoomBridge.cleanScene retainPpt w in
   unlogged (trace a) = trace b /\ world a = world b /\ result a = result b).
Proof.
  split; [reflexivity|]. split; [reflexivity|]. split; [reflexivity|].
  unfold RegisterRoom.setScenePath, RoomBridge.setScenePath,
    RegisterRoom.setSceneIndex, RoomBridge.setSceneIndex,
    Room.cleanScene, RoomBridge.cleanScene, unlogged.
  evaluate. repeat split; collaborate; reflexivity.
Qed.

(** X18. addApp of src/src/bridge/Room.ts differs from addApp of
    src/unnamed/part_000 by the logger entry alone, for every kind other
    than "Slide" and, for "Slide", whenever the two stripped lists are
    equal. *)
Theorem addApp_agrees_up_to_stripped
        (kind : JsString) (options attributes : Any) (w : W) :
  (kind = Js.lit "Slide" ->
   scenesWithoutPPT (Room.makeSlideParams (scenes (as_opts options))) =
   scenesWithoutPPT (RoomBridge.makeSlideParams (scenes (as_opts options)))) ->
  let a := Room.addApp as_opts kind options attributes w in
  let b := RoomBridge.addApp as_opts kind options attributes w in
  unlogged (trace a) = trace b /\ world a = world b /\ result a = result b.
Proof.
  intros H.
  assert (E : Js.eqb kind (Js.lit "Slide") = true ->
              Room.makeSlideParams (scenes (as_opts options)) =
              RoomBridge.makeSlideParams (scenes (as_opts options))).
  { intros Hk. apply js_eqb_eq in Hk. specialize (H Hk).
    destruct (makeSlideParams_cases (scenes (as_opts options)))
      as [(_ & E1 & E2) | (pre & s & post & t & u & _ & _ & _ & E1 & E2)];
      rewrite E1, E2 in *; [reflexivity|].
    simpl in H. now rewrite H. }
  unfold Room.addApp, RoomBridge.addApp, Room.addSlideApp,
    RoomBridge.addSlideApp, Room.manager_bang_addApp,
    RoomBridge.manager_bang_addApp, unlogged.
  destruct (Js.eqb kind (Js.lit "Slide")).
  - rewrite (E eq_refl). evaluate.
    destruct (window_manager w) eqn:Hm; evaluate; [|repeat split].
    destruct (Js.truthy _ && Js.truthy _); rewrite Hm; evaluate;
      collaborate; repeat split.
  - evaluate. destruct (window_manager w) eqn:Hm; evaluate; [|repeat split].
    collaborate; repeat split.
Qed.
End Outcomes.

Section SlideDispatch.
Context {Any W : Type} {sdk : Sdk Any W}.
Variable as_opts : Any -> AddAppOptions.

(** X19. With a window manager, addApp of kind "Slide" requests a "Slide"
    app exactly when some scene of the options matches the pattern, and a
    DocsViewer app with the scenes as received otherwise. *)
Theorem slide_app_iff_matching (options attributes : Any) (w : W) :
  window_manager w = true ->
  let opts := as_opts options in
  let r := RoomBridge.makeSlideParams (scenes opts) in
  let o := RoomBridge.addApp as_opts (Js.lit "Slide") options attributes w in
  (Exists matching (scenes opts) ->
   calls (trace o) = [manager_addApp (slide_request opts r)]) /\
  (~ Exists matching (scenes opts) ->
   calls (trace o) = [manager_addApp (docs_request opts)]).
Proof.
  intros Hm opts r o. subst o.
  rewrite (RoomBridge_addApp_Slide as_opts options attributes w Hm).
  fold opts. fold r.
  destruct (makeSlideParams_matched (scenes opts))
    as [(Ht & Hu & Hex) | (Ht & Hu & Hex)]; fold r in Ht, Hu.
  - apply truthy_nonempty in Ht, Hu. rewrite Ht, Hu. simpl.
    split; [reflexivity|contradiction].
  - rewrite Ht. simpl. split; [contradiction|reflexivity].
Qed.
End SlideDispatch.

Lemma scripted_stores : @setSceneIndex_stores _ _ Scripted.sdk.
Proof.
  intros w j Hj. exists (Scripted.with_index j w). simpl in *.
  unfold Scripted.setSceneIndex.
  assert (E : ((0 <=? j)
               && (j <? Z.of_nat (List.length (Scripted.scene_list w))))%Z
              = true).
  { apply andb_true_iff. split; [apply Z.leb_le|apply Z.ltb_lt]; lia. }
  rewrite E. repeat split.
Defined.

Lemma calm_in_range : in_range (Scripted.calm false).
Proof. unfold in_range. simpl. lia. Defined.

Lemma addApp_reply_witness :
  let w := Scripted.calm true in
  let o := Scripted.deck_options in
  window_manager w = true /\
  responses
    (trace (RoomBridge.addApp (fun x => x) (Js.lit "Slide") o o w)) =
    [AppId (Some (Js.lit "Slide-1"))].
Proof.
  intros w o. split; [reflexivity|].
  exact (proj1 (proj2 (@addApp_reply _ _ Scripted.sdk (fun x => x)
                         (Js.lit "Slide") o o w eq_refl))).
Defined.

Lemma addApp_manager_throws_witness :
  let w := unregistered in
  let o := Scripted.deck_options in
  let e := Scripted.error "app kind is not registered" in
  window_manager w = true /\
  result (RoomBridge.addApp (fun x => x) (Js.lit "Slide") o o w) = Normal tt /\
  result (RoomBridge.addApp (fun x => x) (Js.lit "MediaPlayer") o o w) =
    Throw e.
Proof.
  intros w o e. split; [reflexivity|]. split.
  - refine (proj2 (proj1 (@addApp_manager_throws _ _ Scripted.sdk (fun x => x)
                            (Js.lit "Slide") o o w e eq_refl eq_refl) eq_refl)).
  - refine (proj2 (proj2 (@addApp_manager_throws _ _ Scripted.sdk (fun x => x)
                            (Js.lit "MediaPlayer") o o w e eq_refl eq_refl) _)).
    discriminate.
Defined.

Lemma paging_with_manager_witness :
  let w := Scripted.calm true in
  window_manager w = true /\
  responses (trace (RoomBridge.nextPage w)) = [Boolean true] /\
  calls (trace (RoomBridge.nextPage w)) = [manager_nextPage].
Proof.
  intros w. split; [reflexivity|].
  destruct (@paging_with_manager _ _ Scripted.sdk w eq_refl)
    as (C & R & _). split; [exact R|exact C].
Defined.

Lemma page_turn_round_trip_witness :
  let w := Scripted.calm false in
  let o := (RoomBridge.nextPage ;; RoomBridge.prevPage) w in
  window_manager w = false /\ in_range w /\
  responses (trace o) = [Boolean true; Boolean true] /\
  sceneState_index (world o) = 1%Z.
Proof.
  intros w o. split; [reflexivity|]. split; [exact calm_in_range|].
  destruct (proj1 (@page_turn_round_trip _ _ Scripted.sdk w eq_refl
                     scripted_stores calm_in_range)) as (R & _ & I).
  - simpl. lia.
  - split; [exact R|exact I].
Defined.

Lemma page_turn_keeps_range_witness :
  let w := Scripted.calm false in
  window_manager w = false /\ in_range w /\
  in_range (world (RoomBridge.nextPage w)) /\
  in_range (world (RoomBridge.prevPage w)).
Proof.
  intros w. split; [reflexivity|]. split; [exact calm_in_range|].
  destruct (@page_turn_keeps_range _ _ Scripted.sdk w eq_refl
              scripted_stores calm_in_range) as (N & P & _).
  split; [exact N|exact P].
Defined.

Lemma addApp_agrees_up_to_stripped_witness :
  let w := Scripted.calm true in
  let o := handout_options in
  unlogged (trace (Room.addApp (fun x => x) (Js.lit "Slide") o o w)) =
  trace (RoomBridge.addApp (fun x => x) (Js.lit "Slide") o o w).
Proof.
  intros w o.
  exact (proj1 (@addApp_agrees_up_to_stripped _ _ Scripted.sdk (fun x => x)
                  (Js.lit "Slide") o o w (fun _ => eq_refl))).
Defined.

Lemma slide_app_iff_matching_witness :
  let w := Scripted.calm true in
  let o := Scripted.deck_options in
  window_manager w = true /\ Exists matching Scripted.deck /\
  calls (trace (RoomBridge.addApp (fun x => x) (Js.lit "Slide") o o w)) =
    [manager_addApp
       (slide_request o (RoomBridge.makeSlideParams Scripted.deck))].
Proof.
  intros w o.
  assert (H : Exists matching Scripted.deck).
  { apply Exists_cons_hd. apply slide_source_some_matching.
    vm_compute. discriminate. }
  split; [reflexivity|]. split; [exact H|].
  exact (proj1 (@slide_app_iff_matching _ _ Scripted.sdk (fun x => x)
                  o o w eq_refl) H).
Defined.

(* ================================================================== *)
(** * The request of a "Slide" addApp *)

Section SlideRequest.

Context {Any W : Type} {sdk : Sdk Any W}.
Variable as_opts : Any -> AddAppOptions.

(** C1. With a window manager, addApp of kind "Slide" classifies the scene
    list of the options and makes one window.manager.addApp call. In
    src/unnamed/part_000, when the task identifier and the url are both
    non-empty the call is for a "Slide" app with attributes {taskId, url}
    and the name-only copy of every supplied scene, and otherwise for a
    DocsViewer app with the scenes as received. src/src/bridge/Room.ts
    takes the same branch with the same attributes, but its "Slide"
    request carries a prefix of the name-only copy only: for the three
    scenes of [Scripted.deck], whose first scene matches, it sends one
    scene. *)
Theorem addApp_Slide_dispatch (options attributes : Any) (w : W) :
  window_manager w = true ->
  let opts := as_opts options in
  let r := RoomBridge.makeSlideParams (scenes opts) in
  let stripped :=
    map (fun v => {| name := name v; ppt := None |}) (scenes opts) in
  let slide (l : list SceneDefinition) : AddAppParams Any :=
    {| kind := Js.lit "Slide";
       options := SceneOptions {| scenePath := scenePath opts;
                                  title := title opts;
                                  scenes := l |};
       attributes := SlideAttributes (taskId r) (url r) |} in
  let docs : AddAppParams Any :=
    {| kind := BuiltinApps_DocsViewer;
       options := SceneOptions {| scenePath := scenePath opts;
                                  title := title opts;
                                  scenes := scenes opts |};
       attributes := NoAttributes |} in
  let bridge :=
    calls (trace (RoomBridge.addApp as_opts (Js.lit "Slide")
                                    options attributes w)) in
  let room :=
    calls (trace (Room.addApp as_opts (Js.lit "Slide")
                              options attributes w)) in
  (taskId r <> [] /\ url r <> [] ->
   bridge = [manager_addApp (slide stripped)] /\
   exists k, k <= List.length (scenes opts) /\
             room = [manager_addApp (slide (firstn k stripped))]) /\
  (~ (taskId r <> [] /\ url r <> []) ->
   bridge = [manager_addApp docs] /\ room = [manager_addApp docs]) /\
  List.length (scenes Scripted.deck_options) = 3 /\
  calls (trace (RoomBridge.addApp (fun o => o) (Js.lit "Slide")
                  Scripted.deck_options Scripted.deck_options
                  (Scripted.calm true))) =
    [manager_addApp
       {| kind := Js.lit "Slide";
          options :=
            SceneOptions
              {| scenePath := Some (Js.lit "/deck");
                 title := Some (Js.lit "Deck");
                 scenes := [ {| name := Some (Js.lit "1"); ppt := None |};
                             {| name := Some (Js.lit "2"); ppt := None |};
                             {| name := Some (Js.lit "3"); ppt := None |} ] |};
          attributes :=
            SlideAttributes
              (Js.lit "abc123")
              (Js.lit "https://cdn.example.com/dynamicConvert") |}] /\
  calls (trace (Room.addApp (fun o => o) (Js.lit "Slide")
                  Scripted.deck_options Scripted.deck_options
                  (Scripted.calm true))) =
    [manager_addApp
       {| kind := Js.lit "Slide";
          options :=
            SceneOptions
              {| scenePath := Some (Js.lit "/deck");
                 title := Some (Js.lit "Deck");
                 scenes := [ {| name := Some (Js.lit "1"); ppt := None |} ] |};
          attributes :=
            SlideAttributes
              (Js.lit "abc123")
              (Js.lit "https://cdn.example.com/dynamicConvert") |}].
Proof.
  intros Hm opts r stripped slide docs bridge room.
  subst bridge room.
  rewrite (RoomBridge_addApp_Slide as_opts options attributes w Hm).
  rewrite (Room_addApp_Slide as_opts options attributes w Hm).
  fold opts. subst slide docs stripped r.
  unfold slide_request, docs_request.
  destruct (makeSlideParams_cases (scenes opts))
    as [(_ & E & E') | (pre & s & post & t & u & Es & _ & Hs & E & E')];
    rewrite E, E'; cbn [taskId url scenesWithoutPPT];
    (split; [|split; [|repeat split]]).
  - intros [H _]. now contradiction H.
  - intros _. split; reflexivity.
  - intros _. destruct (@slide_source_nonempty _ _ _ Hs) as [Ht Hu].
    apply truthy_nonempty in Ht, Hu. rewrite Ht, Hu. cbn [andb].
    split; [reflexivity|].
    exists (List.length (pre ++ [s])). split.
    + rewrite Es, !length_app. simpl. lia.
    + change (map (fun v => {| name := name v; ppt := None |}) (scenes opts))
        with (map strip_scene (scenes opts)).
      rewrite Es. change (pre ++ s :: post) with (pre ++ [s] ++ post).
      rewrite app_assoc, (map_app strip_scene (pre ++ [s]) post).
      rewrite firstn_exact by (now rewrite length_map). reflexivity.
  - intros H. exfalso. apply H. exact (@slide_source_nonempty _ _ _ Hs).
Qed.

End SlideRequest.

Lemma addApp_Slide_dispatch_witness :
  let w := Scripted.calm true in
  let o := Scripted.deck_options in
  window_manager w = true /\
  calls (trace (RoomBridge.addApp (fun x => x) (Js.lit "Slide") o o w)) =
    [manager_addApp
       {| kind := Js.lit "Slide";
          options :=
            SceneOptions
              {| scenePath := scenePath o;
                 title := title o;
                 scenes := map (fun v => {| name := name v; ppt := None |})
                               Scripted.deck |};
          attributes :=
            SlideAttributes
              (taskId (RoomBridge.makeSlideParams Scripted.deck))
              (url (RoomBridge.makeSlideParams Scripted.deck)) |}].
Proof.
  intros w o. split; [reflexivity|].
  apply (proj1 (@addApp_Slide_dispatch _ _ Scripted.sdk (fun x => x)
                  o o w eq_refl)).
  split; discriminate.
Defined.
